(** * radicale_auth_ldap: the LDAP authentication plugin, embedded and verified

    A shallow embedding of [radicale_auth_ldap/__init__.py]: the strict boolean
    parser [parse_bool], the plugin's configuration schema, the constructor
    [Auth.__init__] and the two-phase protocol of [Auth.login].

    The directory client (ldap3) and the host (Radicale's configuration and
    logger) are outside the plugin.  The directory is an oracle ([world]) that
    fixes, for every call the plugin makes, whether the call returns and what,
    or which exception it raises.  Every call the plugin makes on a connection,
    every log line and every line written to standard output is recorded, in
    order, in a trace of [event]s. *)

From Stdlib Require Import ZArith Lia Ascii.
From stdpp Require Import base strings gmap list.

Open Scope string_scope.
Open Scope list_scope.

(** ** Python values and exceptions *)

(** The values that reach [parse_bool] and the logger. *)
Inductive pyval :=
| PNone
| PBool (b : bool)
| PInt (z : Z)
| PStr (s : string).

(** Truth value of [if v:]. *)
Definition truthy (v : pyval) : bool :=
  match v with
  | PNone => false
  | PBool b => b
  | PInt z => negb (z =? 0)%Z
  | PStr s => negb (String.eqb s "")
  end.

(** [str(v)], as the [%s] conversion renders it. *)
Definition py_str_bool (b : bool) : string := if b then "True" else "False".

Definition py_str_opt (o : option string) : string :=
  match o with
  | None => "None"
  | Some s => s
  end.

(** [v == s] for a string literal [s]: only a string equals a string. *)
Definition py_eq_str (v : pyval) (s : string) : bool :=
  match v with
  | PStr t => String.eqb t s
  | _ => false
  end.

(** [v in [s1, s2, ...]] for a list of string literals. *)
Definition py_in (v : pyval) (l : list string) : bool :=
  existsb (py_eq_str v) l.

(** Exception classes, all deriving from [Exception]: the ones the plugin
    raises itself, the one it catches by name, and the rest of what the
    directory client raises. *)
Inductive exn_class :=
| ValueError
| KeyError
| TypeError
| RuntimeError
| LDAPInvalidCredentialsResult
| LDAPException (name : string).

#[global] Instance exn_class_eq_dec : EqDecision exn_class.
Proof. solve_decision. Defined.

Record exn := mk_exn { exn_cls : exn_class; exn_msg : string }.

(** ** The directory as the plugin sees it *)

(** [conn.result] after an operation: the dict's ['result'] code and its
    description. *)
Record ldap_result := mk_result { result : Z; description : string }.

(** One element of [conn.response].  It is a dict; a field is [None] when the
    key is absent (a search result entry carries both keys, a referral
    carries neither). *)
Record entry := mk_entry {
  dn : option string;
  attributes : option (gmap string string)
}.

(** The two objects bound, one after the other, to the variable [conn]. *)
Inductive conn_id := conn1 | conn2.

#[global] Instance conn_id_eq_dec : EqDecision conn_id.
Proof. solve_decision. Defined.

(** What a [Connection] is constructed with; the directory tells its
    connections apart by it. *)
Record session := mk_session {
  conn_ident : conn_id;
  conn_server : string;
  conn_user : option string;
  conn_password : option string
}.

(** A connection object: its session, and the [result] and [response] the
    last operation left on it. *)
Record connection := mk_connection {
  conn_session : session;
  conn_result : option ldap_result;
  conn_response : option (list entry)
}.

Record search_request := mk_search {
  search_base : string;
  search_scope : string;
  search_filter : string;
  search_attributes : list string
}.

Inductive outcome (A : Type) :=
| Return (a : A)
| Raise (e : exn).
Arguments Return {A} a.
Arguments Raise {A} e.

(** What the directory client does on each call. *)
Record world := mk_world {
  Server_outcome : string -> outcome unit;
  Connection_outcome : session -> outcome unit;
  bind_outcome : session -> outcome ldap_result;
  who_am_i_outcome : session -> outcome (option string);
  search_outcome : session -> search_request -> outcome (list entry);
  unbind_outcome : session -> outcome unit
}.

(** ** Traces *)

Inductive level := DEBUG | INFO | ERROR.

Inductive message :=
| Msg (s : string)
| MsgFmt (fmt : string) (args : list pyval)
| MsgResult (r : option ldap_result).

Inductive operation :=
| OpConnection (user password : option string)
| OpBind
| OpWhoAmI
| OpSearch (req : search_request)
| OpUnbind.

Inductive event :=
| ELog (lvl : level) (m : message)
| EPrintFlag (v : pyval)
| EPrintResult (r : option ldap_result)
| ECall (c : conn_id) (op : operation).

(** ** The monad of the plugin's code: read the oracle, append to the trace,
    return or raise *)

Definition M (A : Type) : Type := world -> list event * outcome A.

Definition ret {A} (a : A) : M A := fun _ => ([], Return a).

Definition raise {A} (e : exn) : M A := fun _ => ([], Raise e).

Definition bind {A B} (m : M A) (f : A -> M B) : M B :=
  fun w =>
    match m w with
    | (t1, Return a) => let '(t2, r) := f a w in (t1 ++ t2, r)
    | (t1, Raise e) => (t1, Raise e)
    end.

(** [try: m  except Exception as err: h err] *)
Definition try_except {A} (m : M A) (h : exn -> M A) : M A :=
  fun w =>
    match m w with
    | (t1, Return a) => (t1, Return a)
    | (t1, Raise e) => let '(t2, r) := h e w in (t1 ++ t2, r)
    end.

Definition emit (e : event) : M unit := fun _ => ([e], Return tt).

Definition ask {A} (f : world -> outcome A) : M A := fun w => ([], f w).

#[global] Instance M_ret : MRet M := @ret.
#[global] Instance M_bind : MBind M := fun A B f m => bind m f.

(** [try: m  except cls: h], other classes pass through. *)
Definition try_except_class {A} (cls : exn_class) (m : M A) (h : M A) : M A :=
  try_except m (fun e => if decide (exn_cls e = cls) then h else raise e).

Definition trace {A} (r : list event * outcome A) : list event := fst r.
Definition returned {A} (r : list event * outcome A) : outcome A := snd r.

Definition logger (lvl : level) (s : string) : M unit := emit (ELog lvl (Msg s)).

(** ** [parse_bool] *)

Definition parse_bool (v : pyval) : M bool :=
  emit (EPrintFlag v);;
  if py_in v ["True"; "true"; "yes"] then ret true
  else if py_in v ["False"; "false"; "no"] then ret false
  else raise (mk_exn ValueError "Not a bool").

(** ** Filter escaping *)

(** Modelled from the spec: [escape_attribute_value] is defined in
    [radicale_auth_ldap/ldap3imports.py], which is not among the sources.
    The specification asks that it escape [*], [(], [)], [\] and NUL as
    RFC 4515 does: each becomes a backslash and the two hexadecimal digits of
    its code; every other character stays. *)
Definition escape_char (c : ascii) : string :=
  if Ascii.eqb c "*" then "\2a"
  else if Ascii.eqb c "(" then "\28"
  else if Ascii.eqb c ")" then "\29"
  else if Ascii.eqb c "\" then "\5c"
  else if Ascii.eqb c zero then "\00"
  else String c "".

Fixpoint escape_attribute_value (s : string) : string :=
  match s with
  | "" => ""
  | String c s' => escape_char c +:+ escape_attribute_value s'
  end.

(** A reader of RFC 4515 assertion values, to say what an escaped value
    means to the directory: [\XX] stands for the character of code [XX], a
    bare [*], [(], [)] or NUL is a metacharacter and ends the literal
    reading ([None]), anything else stands for itself. *)
Definition hex_digit (c : ascii) : option nat :=
  let n := nat_of_ascii c in
  if (48 <=? n)%nat && (n <=? 57)%nat then Some (n - 48)%nat
  else if (97 <=? n)%nat && (n <=? 102)%nat then Some (n - 87)%nat
  else if (65 <=? n)%nat && (n <=? 70)%nat then Some (n - 55)%nat
  else None.

Definition is_filter_meta (c : ascii) : bool :=
  Ascii.eqb c "*" || Ascii.eqb c "(" || Ascii.eqb c ")" || Ascii.eqb c zero.

Fixpoint literal_value (s : string) : option string :=
  match s with
  | "" => Some ""
  | String c rest =>
      if Ascii.eqb c "\" then
        match rest with
        | String h (String l rest') =>
            match hex_digit h, hex_digit l, literal_value rest' with
            | Some a, Some b, Some t => Some (String (ascii_of_nat (16 * a + b)) t)
            | _, _, _ => None
            end
        | _ => None
        end
      else if is_filter_meta c then None
      else
        match literal_value rest with
        | Some t => Some (String c t)
        | None => None
        end
  end.

Fixpoint occurs (c : ascii) (s : string) : bool :=
  match s with
  | "" => false
  | String a s' => Ascii.eqb a c || occurs c s'
  end.

(** ** The authenticator *)

Record Auth := mk_Auth {
  ldap_url : string;
  ldap_base : string;
  ldap_filter : string;
  ldap_attribute : string;
  ldap_binddn : string;
  ldap_password : string;
  ldap_scope : string;
  ldap_support_extended : pyval
}.

(** The class attributes, which an instance shows until [__init__] assigns. *)
Definition Auth_class : Auth :=
  {| ldap_url := "";
     ldap_base := "";
     ldap_filter := "";
     ldap_attribute := "user";
     ldap_binddn := "";
     ldap_password := "";
     ldap_scope := "LEVEL";
     ldap_support_extended := PBool true |}.

(** *** Calls on the directory client *)

Definition Server (url : string) : M string :=
  ask (fun w => Server_outcome w url);; mret url.

Definition Connection (id : conn_id) (server : string)
    (user password : option string) : M connection :=
  let s := mk_session id server user password in
  emit (ECall id (OpConnection user password));;
  ask (fun w => Connection_outcome w s);;
  mret (mk_connection s None None).

Definition call (c : connection) (op : operation) : M unit :=
  emit (ECall (conn_ident (conn_session c)) op).

(** [conn.bind()] leaves the outcome of the bind in [conn.result]. *)
Definition conn_bind (c : connection) : M connection :=
  call c OpBind;;
  r ← ask (fun w => bind_outcome w (conn_session c));
  mret (mk_connection (conn_session c) (Some r) (conn_response c)).

(** [conn.extend.standard.who_am_i()] *)
Definition who_am_i (c : connection) : M (option string) :=
  call c OpWhoAmI;;
  ask (fun w => who_am_i_outcome w (conn_session c)).

(** [conn.search(...)] leaves the entries in [conn.response]. *)
Definition search (c : connection) (req : search_request) : M connection :=
  call c (OpSearch req);;
  l ← ask (fun w => search_outcome w (conn_session c) req);
  mret (mk_connection (conn_session c) (conn_result c) (Some l)).

Definition unbind (c : connection) : M unit :=
  call c OpUnbind;;
  ask (fun w => unbind_outcome w (conn_session c)).

(** [d[key]] on a dict field. *)
Definition getitem {A} (field : option A) (key : string) : M A :=
  match field with
  | Some a => mret a
  | None => raise (mk_exn KeyError ("'" +:+ key +:+ "'"))
  end.

(** [conn.result['result']] *)
Definition result_code (c : connection) : M Z :=
  match conn_result c with
  | Some r => mret (result r)
  | None => raise (mk_exn TypeError "'NoneType' object is not subscriptable")
  end.

Definition nonempty (s : string) : bool := negb (String.eqb s "").

(** *** [Auth.login] *)

(** Lines 177-183: the equality clause and the filter sent to the directory. *)
Definition distinguished_name (self : Auth) (login : string) : string :=
  ldap_attribute self +:+ "=" +:+ escape_attribute_value login.

Definition filter_string (self : Auth) (login : string) : string :=
  if nonempty (ldap_filter self)
  then "(&(" +:+ distinguished_name self login +:+ ")" +:+ ldap_filter self +:+ ")"
  else distinguished_name self login.

Definition login_search_request (self : Auth) (login : string) : search_request :=
  {| search_base := ldap_base self;
     search_scope := ldap_scope self;
     search_filter := filter_string self login;
     search_attributes := [ldap_attribute self] |}.

(** Lines 164-192: open the first connection, bind, probe, search, unbind.
    Hands on [SERVER] and [users]. *)
Definition service_phase (self : Auth) (login : string)
    : M (string * option (list entry)) :=
  SERVER ← Server (ldap_url self);
  conn ← (if nonempty (ldap_binddn self) && nonempty (ldap_password self)
          then Connection conn1 SERVER (Some (ldap_binddn self))
                 (Some (ldap_password self))
          else Connection conn1 SERVER None None);
  conn ← conn_bind conn;
  try_except
    (whoami ← who_am_i conn;
     logger DEBUG ("LDAP whoami: " +:+ py_str_opt whoami))
    (fun err => logger ERROR ("LDAP error: " +:+ exn_msg err));;
  logger DEBUG ("LDAP bind for " +:+ distinguished_name self login
                +:+ " in base " +:+ ldap_base self);;
  logger DEBUG ("LDAP filter: " +:+ filter_string self login);;
  conn ← search conn (login_search_request self login);
  let users := conn_response conn in
  unbind conn;;
  mret (SERVER, users).

(** Lines 199-215: the body of the [try]. *)
Definition verify (self : Auth) (SERVER login password user_dn : string)
    : M string :=
  conn ← Connection conn2 SERVER (Some user_dn) (Some password);
  conn ← conn_bind conn;
  emit (ELog DEBUG (MsgResult (conn_result conn)));;
  extended ← parse_bool (ldap_support_extended self);
  whoami ← (if extended : bool
            then
              whoami ← who_am_i conn;
              logger DEBUG ("LDAP whoami: " +:+ py_str_opt whoami);;
              mret (match whoami with Some s => PStr s | None => PNone end)
            else
              logger DEBUG "LDAP skip extended: call whoami";;
              code ← result_code conn;
              emit (EPrintResult (conn_result conn));;
              mret (PBool (code =? 0)%Z));
  unbind conn;;
  if truthy whoami
  then logger INFO "LDAP bind OK";; mret login
  else logger ERROR "LDAP bind failed";; mret "".

(** Lines 216-220: the two handlers, and the [return ""] they fall to. *)
Definition verify_handler (err : exn) : M string :=
  (if decide (exn_cls err = LDAPInvalidCredentialsResult)
   then logger ERROR "LDAP invalid credentials"
   else logger ERROR ("LDAP error " +:+ exn_msg err));;
  mret "".

(** Lines 194-223: what [login] does with [users]. *)
Definition verification_phase (self : Auth) (SERVER login password : string)
    (users : option (list entry)) : M string :=
  match users with
  | Some (first :: _) =>
      user_dn ← getitem (dn first) "dn";
      attrs ← getitem (attributes first) "attributes";
      uid ← getitem (attrs !! ldap_attribute self) (ldap_attribute self);
      logger INFO ("LDAP user " +:+ uid +:+ " (" +:+ user_dn +:+ ") found");;
      try_except (verify self SERVER login password user_dn) verify_handler
  | _ =>
      logger ERROR ("LDAP user " +:+ login +:+ " not found");;
      mret ""
  end.

Definition login (self : Auth) (login password : string) : M string :=
  '(SERVER, users) ← service_phase self login;
  verification_phase self SERVER login password users.

(** ** Configuration *)

(** The [type] of a schema option: [str] or [parse_bool]. *)
Inductive option_type := type_str | type_parse_bool.

Record schema_option := mk_option { default_value : string; type : option_type }.

(** The ["auth"] section of [PLUGIN_CONFIG_SCHEMA] (its [help] texts left
    out). *)
Definition PLUGIN_CONFIG_SCHEMA : list (string * schema_option) :=
  [ ("ldap_url", mk_option "ldap://localhost:389" type_str);
    ("ldap_base", mk_option "ou=users,dc=example,dc=com" type_str);
    ("ldap_filter", mk_option "(&(objectclass=user)(username=%username))" type_str);
    ("ldap_attribute", mk_option "username" type_str);
    ("ldap_binddn", mk_option "" type_str);
    ("ldap_password", mk_option "" type_str);
    ("ldap_scope", mk_option "LEVEL" type_str);
    ("ldap_support_extended", mk_option "True" type_parse_bool) ].

(** Calling an option's [type] on a raw value. *)
Definition apply_type (t : option_type) (raw : string) : M pyval :=
  match t with
  | type_str => mret (PStr raw)
  | type_parse_bool => b ← parse_bool (PStr raw); mret (PBool b)
  end.

(** [repr(s)] of a string: between single quotes, or between double quotes
    when [s] holds a single quote and no double quote; a backslash and the
    enclosing quote are escaped, tab, newline and carriage return are
    written [\t], [\n], [\r], every other character that is not printable
    is written [\xNN]. *)
Definition double_quote : ascii := ascii_of_nat 34.

Definition hex_char (n : nat) : ascii :=
  ascii_of_nat (if (n <? 10)%nat then 48 + n else 87 + n).

Definition is_printable (c : ascii) : bool :=
  let n := nat_of_ascii c in
  (32 <=? n)%nat && (n <? 127)%nat
  || (161 <=? n)%nat && negb (n =? 173)%nat.

Definition repr_char (quote c : ascii) : string :=
  let n := nat_of_ascii c in
  if Ascii.eqb c "\" then "\\"
  else if Ascii.eqb c quote then String "\" (String quote "")
  else if (n =? 9)%nat then "\t"
  else if (n =? 10)%nat then "\n"
  else if (n =? 13)%nat then "\r"
  else if is_printable c then String c ""
  else String "\" (String "x" (String (hex_char (n / 16))
                                  (String (hex_char (n mod 16)) ""))).

Fixpoint repr_chars (quote : ascii) (s : string) : string :=
  match s with
  | "" => ""
  | String c s' => repr_char quote c +:+ repr_chars quote s'
  end.

Definition py_repr (s : string) : string :=
  let quote := if occurs "'" s && negb (occurs double_quote s)
               then double_quote else "'"%char in
  String quote (repr_chars quote s +:+ String quote "").

(** [type_.__name__] *)
Definition type_name (t : option_type) : string :=
  match t with
  | type_str => "str"
  | type_parse_bool => "parse_bool"
  end.

(** The host's configuration object, as far as the plugin uses it: the name
    of the source its options were read from, and the options of its
    ["auth"] section with the raw strings the host holds for them.

    [configuration.copy(schema)] makes a configuration for the schema, which
    converts every default of the schema through the option's [type], and
    then replays the source on it, which converts every configured option
    through its [type]; a failing conversion becomes a [RuntimeError] that
    names the type, the option, the section, the source and the value.  The
    options of the host's own schema go through the host's own types; they
    are not the plugin's and are left out.  [configuration.get] raises
    [KeyError] for an option the host does not hold. *)
Definition invalid_value (t : option_type) (name source raw : string) : exn :=
  mk_exn RuntimeError
    ("Invalid " +:+ type_name t +:+ " value for option " +:+ py_repr name
     +:+ " in section 'auth' in " +:+ source +:+ ": " +:+ py_repr raw).

Definition convert_option (source : string) (o : string * schema_option)
    (raw : string) : M unit :=
  try_except (apply_type (type (snd o)) raw;; mret tt)
    (fun _ => raise (invalid_value (type (snd o)) (fst o) source raw)).

(** [Configuration(schema)]: the defaults, in the order of the schema. *)
Fixpoint convert_defaults (schema : list (string * schema_option)) : M unit :=
  match schema with
  | [] => mret tt
  | o :: schema' =>
      convert_option "default config" o (default_value (snd o));;
      convert_defaults schema'
  end.

(** [copy.update(config, source)]: the configured options. *)
Definition convert_configured_option (source : string)
    (configuration : gmap string string) (o : string * schema_option) : M unit :=
  match configuration !! fst o with
  | Some raw => convert_option source o raw
  | None => mret tt
  end.

Fixpoint convert_configured (source : string)
    (configuration : gmap string string)
    (schema : list (string * schema_option)) : M unit :=
  match schema with
  | [] => mret tt
  | o :: schema' =>
      convert_configured_option source configuration o;;
      convert_configured source configuration schema'
  end.

Definition configuration_copy (source : string)
    (configuration : gmap string string)
    (schema : list (string * schema_option)) : M unit :=
  convert_defaults schema;;
  convert_configured source configuration schema.

Definition configuration_get (configuration : gmap string string)
    (name : string) : M string :=
  getitem (configuration !! name) name.

(** [s.rstrip("/")] *)
Fixpoint rstrip_slash (s : string) : string :=
  match s with
  | "" => ""
  | String c s' =>
      let r := rstrip_slash s' in
      if Ascii.eqb c "/" && String.eqb r "" then "" else String c r
  end.

(** [try: self.x = configuration.get("auth", option)  except KeyError: pass] *)
Definition get_or_keep (configuration : gmap string string)
    (name : string) (current : pyval) : M pyval :=
  try_except_class KeyError
    (v ← configuration_get configuration name; mret (PStr v))
    (mret current).

Definition get_or_keep_str (configuration : gmap string string)
    (name : string) (current : string) : M string :=
  try_except_class KeyError (configuration_get configuration name)
    (mret current).

Definition log_option (name : string) (v : pyval) : M unit :=
  emit (ELog INFO (MsgFmt "  %r is %r" [PStr name; v])).

(** Lines 116-160.  [BaseAuth.__init__] receives the copy and does nothing
    the plugin reads back; the options are then read from the configuration
    itself, not from the copy, so the flag is stored as the host holds it. *)
Definition Auth_init (source : string) (configuration : gmap string string)
    : M Auth :=
  configuration_copy source configuration PLUGIN_CONFIG_SCHEMA;;
  if negb (bool_decide (is_Some (configuration !! "ldap_url")))
  then raise (mk_exn RuntimeError
                "The ldap_url configuration for ldap auth is required.")
  else if negb (bool_decide (is_Some (configuration !! "ldap_base")))
  then raise (mk_exn RuntimeError
                "The ldap_base configuration for ldap auth is required.")
  else
    url ← configuration_get configuration "ldap_url";
    base ← configuration_get configuration "ldap_base";
    filter ← get_or_keep_str configuration "ldap_filter" (ldap_filter Auth_class);
    attribute ← get_or_keep_str configuration "ldap_attribute"
                  (ldap_attribute Auth_class);
    binddn ← get_or_keep_str configuration "ldap_binddn" (ldap_binddn Auth_class);
    password ← get_or_keep_str configuration "ldap_password"
                 (ldap_password Auth_class);
    scope ← get_or_keep_str configuration "ldap_scope" (ldap_scope Auth_class);
    extended ← get_or_keep configuration "ldap_support_extended"
                 (ldap_support_extended Auth_class);
    let self := mk_Auth (rstrip_slash url) base filter attribute binddn password
                  scope extended in
    emit (ELog INFO (Msg "LDAP auth configuration:"));;
    log_option "ldap_url" (PStr (ldap_url self));;
    log_option "ldap_base" (PStr (ldap_base self));;
    log_option "ldap_filter" (PStr (ldap_filter self));;
    log_option "ldap_attribute" (PStr (ldap_attribute self));;
    log_option "ldap_binddn" (PStr (ldap_binddn self));;
    log_option "ldap_password" (PStr (ldap_password self));;
    log_option "ldap_scope" (PStr (ldap_scope self));;
    log_option "ldap_support_extended" (ldap_support_extended self);;
    mret self.

(** ** Reading a trace *)

Definition is_bind (op : operation) : bool :=
  match op with OpBind => true | _ => false end.

Definition is_unbind (op : operation) : bool :=
  match op with OpUnbind => true | _ => false end.

Definition is_call (c : conn_id) (p : operation -> bool) (e : event) : bool :=
  match e with
  | ECall c' op => bool_decide (c' = c) && p op
  | _ => false
  end.

(** A connection is opened by its [bind()] and released by its [unbind()]. *)
Definition opened (t : list event) (c : conn_id) : bool :=
  existsb (is_call c is_bind) t.

Definition released (t : list event) (c : conn_id) : bool :=
  existsb (is_call c is_unbind) t.

Definition all_released (t : list event) : bool :=
  forallb (fun c => implb (opened t c) (released t c)) [conn1; conn2].

(** [parse_bool] writes one line to standard output each time it runs. *)
Definition is_print_flag (e : event) : bool :=
  match e with EPrintFlag _ => true | _ => false end.

Definition parse_bool_runs (t : list event) : nat :=
  length (filter (fun e => is_print_flag e = true) t).

(** The calls on the directory, without the log and the output lines. *)
Definition is_directory_call (e : event) : bool :=
  match e with ECall _ _ => true | _ => false end.

Definition directory_calls (t : list event) : list event :=
  filter (fun e => is_directory_call e = true) t.

(** ** The sessions of a call and what it means for its phases to return *)

Definition service_session (self : Auth) : session :=
  if nonempty (ldap_binddn self) && nonempty (ldap_password self)
  then mk_session conn1 (ldap_url self) (Some (ldap_binddn self))
         (Some (ldap_password self))
  else mk_session conn1 (ldap_url self) None None.

Definition user_session (self : Auth) (user_dn password : string) : session :=
  mk_session conn2 (ldap_url self) (Some user_dn) (Some password).

(** The first connection is constructed and its [bind()] returns, with
    whatever result. *)
Definition service_bind_returns (self : Auth) (w : world) (r : ldap_result)
    : Prop :=
  Server_outcome w (ldap_url self) = Return tt /\
  Connection_outcome w (service_session self) = Return tt /\
  bind_outcome w (service_session self) = Return r.

(** The search phase returns [users]: every call of lines 164-192 returns,
    the probe apart, which may raise. *)
Definition search_phase_returns (self : Auth) (login : string) (w : world)
    (users : list entry) : Prop :=
  (exists r, service_bind_returns self w r) /\
  search_outcome w (service_session self) (login_search_request self login)
    = Return users /\
  unbind_outcome w (service_session self) = Return tt.

(** The first entry carries the keys [login] reads from it. *)
Definition entry_readable (self : Auth) (first : entry) (user_dn uid : string)
    : Prop :=
  dn first = Some user_dn /\
  exists attrs, attributes first = Some attrs /\
                attrs !! ldap_attribute self = Some uid.

(** The second connection is constructed and its [bind()] returns [r]. *)
Definition verification_bind_returns (self : Auth) (w : world)
    (user_dn password : string) (r : ldap_result) : Prop :=
  Connection_outcome w (user_session self user_dn password) = Return tt /\
  bind_outcome w (user_session self user_dn password) = Return r.

(** The log line of a failure category (lines 217 and 219). *)
Definition failure_line (e : exn) : event :=
  if decide (exn_cls e = LDAPInvalidCredentialsResult)
  then ELog ERROR (Msg "LDAP invalid credentials")
  else ELog ERROR (Msg ("LDAP error " +:+ exn_msg e)).

(** The log line of the probe (lines 172-175): the identity, or the error. *)
Definition probe_line (o : outcome (option string)) : event :=
  match o with
  | Return whoami => ELog DEBUG (Msg ("LDAP whoami: " +:+ py_str_opt whoami))
  | Raise err => ELog ERROR (Msg ("LDAP error: " +:+ exn_msg err))
  end.

(** The trace of lines 164-189 once the first [bind()] has returned: up to
    and with the search call. *)
Definition search_prefix (self : Auth) (login : string) (w : world)
    : list event :=
  [ ECall conn1 (OpConnection (conn_user (service_session self))
                   (conn_password (service_session self)));
    ECall conn1 OpBind;
    ECall conn1 OpWhoAmI;
    probe_line (who_am_i_outcome w (service_session self));
    ELog DEBUG (Msg ("LDAP bind for " +:+ distinguished_name self login
                     +:+ " in base " +:+ ldap_base self));
    ELog DEBUG (Msg ("LDAP filter: " +:+ filter_string self login));
    ECall conn1 (OpSearch (login_search_request self login)) ].

Definition found_line (uid user_dn : string) : event :=
  ELog INFO (Msg ("LDAP user " +:+ uid +:+ " (" +:+ user_dn +:+ ") found")).

Definition not_found_line (login : string) : event :=
  ELog ERROR (Msg ("LDAP user " +:+ login +:+ " not found")).

(** No call on the directory raises, the probe on the first connection
    apart. *)
Definition calls_return (w : world) : Prop :=
  (forall url, Server_outcome w url = Return tt) /\
  (forall s, Connection_outcome w s = Return tt) /\
  (forall s, exists r, bind_outcome w s = Return r) /\
  (forall s, conn_ident s = conn2 -> exists o, who_am_i_outcome w s = Return o) /\
  (forall s req, exists users, search_outcome w s req = Return users) /\
  (forall s, unbind_outcome w s = Return tt).

(** The stored flag is one of the six strings [parse_bool] accepts. *)
Definition flag_accepted (self : Auth) : bool :=
  py_in (ldap_support_extended self) ["True"; "true"; "yes"]
  || py_in (ldap_support_extended self) ["False"; "false"; "no"].

(** ** Sample directories *)

Definition sample_auth : Auth :=
  {| ldap_url := "ldap://localhost:389";
     ldap_base := "ou=users,dc=example,dc=com";
     ldap_filter := "(objectclass=user)";
     ldap_attribute := "uid";
     ldap_binddn := "";
     ldap_password := "";
     ldap_scope := "LEVEL";
     ldap_support_extended := PStr "True" |}.

Definition with_flag (self : Auth) (v : pyval) : Auth :=
  mk_Auth (ldap_url self) (ldap_base self) (ldap_filter self)
    (ldap_attribute self) (ldap_binddn self) (ldap_password self)
    (ldap_scope self) v.

Definition alice : entry :=
  mk_entry (Some "uid=alice,ou=users,dc=example,dc=com")
    (Some {[ "uid" := "alice" ]}).

Definition bob : entry :=
  mk_entry (Some "uid=bob,ou=users,dc=example,dc=com")
    (Some {[ "uid" := "bob" ]}).

(** A referral: a response element with neither ['dn'] nor ['attributes']. *)
Definition referral : entry := mk_entry None None.

Definition success : ldap_result := mk_result 0 "success".
Definition invalidCredentials : ldap_result := mk_result 49 "invalidCredentials".

(** Every call returns; the search finds [users], every bind succeeds and
    who-am-i names the bound user. *)
Definition calm (users : list entry) : world :=
  {| Server_outcome := fun _ => Return tt;
     Connection_outcome := fun _ => Return tt;
     bind_outcome := fun _ => Return success;
     who_am_i_outcome := fun s => Return (conn_user s);
     search_outcome := fun _ _ => Return users;
     unbind_outcome := fun _ => Return tt |}.

Definition with_bind (f : session -> outcome ldap_result) (w : world) : world :=
  mk_world (Server_outcome w) (Connection_outcome w) f (who_am_i_outcome w)
    (search_outcome w) (unbind_outcome w).

Definition with_who_am_i (f : session -> outcome (option string)) (w : world)
    : world :=
  mk_world (Server_outcome w) (Connection_outcome w) (bind_outcome w) f
    (search_outcome w) (unbind_outcome w).


Definition socket_error : exn :=
  mk_exn (LDAPException "LDAPSocketOpenError") "socket connection error".

Definition session_terminated : exn :=
  mk_exn (LDAPException "LDAPSessionTerminatedByServerError")
    "session terminated by server".

(** The server cannot be reached: [bind()] raises on every connection. *)
Definition unreachable : world :=
  with_bind (fun _ => Raise socket_error) (calm [alice]).

(** The user's bind goes through, then who-am-i raises on the second
    connection. *)
Definition who_am_i_breaks : world :=
  with_who_am_i
    (fun s => if decide (conn_ident s = conn2) then Raise session_terminated
              else Return None)
    (calm [alice]).

(** The user's bind is refused (result 49) and who-am-i then answers with an
    empty identity. *)
Definition wrong_password : world :=
  with_bind
    (fun s => if decide (conn_ident s = conn2) then Return invalidCredentials
              else Return success)
    (with_who_am_i (fun _ => Return None) (calm [alice])).

(** The user's bind succeeds, who-am-i is not supported. *)
Definition no_who_am_i : world :=
  with_who_am_i (fun _ => Raise session_terminated) (calm [alice]).

(** The service bind is refused (result 49) and the probe raises on the
    first connection; the user's connection works. *)
Definition service_refused : world :=
  with_bind
    (fun s => if decide (conn_ident s = conn1) then Return invalidCredentials
              else Return success)
    (with_who_am_i
       (fun s => if decide (conn_ident s = conn1) then Raise session_terminated
                 else Return (conn_user s))
       (calm [alice])).

(** The user's bind raises the invalid-credentials exception. *)
Definition credentials_rejected : world :=
  with_bind
    (fun s => if decide (conn_ident s = conn2)
              then Raise (mk_exn LDAPInvalidCredentialsResult "invalidCredentials")
              else Return success)
    (calm [alice]).

(** The search raises. *)
Definition search_breaks : world :=
  mk_world (Server_outcome (calm [])) (Connection_outcome (calm []))
    (bind_outcome (calm [])) (who_am_i_outcome (calm []))
    (fun _ _ => Raise session_terminated) (unbind_outcome (calm [])).

(** An entry of a directory that names its users by [user], the class
    default of [ldap_attribute]. *)
Definition carol : entry :=
  mk_entry (Some "cn=carol,ou=users,dc=example,dc=com")
    (Some {[ "user" := "carol" ]}).

(** The authenticator a configuration without [ldap_support_extended]
    yields: the flag keeps the class attribute [True]. *)
Definition default_auth : Auth :=
  {| ldap_url := "ldap://localhost:389";
     ldap_base := "ou=users,dc=example,dc=com";
     ldap_filter := "";
     ldap_attribute := "user";
     ldap_binddn := "";
     ldap_password := "";
     ldap_scope := "LEVEL";
     ldap_support_extended := PBool true |}.

Definition config_file : string := "config file '/etc/radicale/config'".

(** A configuration that names the directory and nothing else, and ones that
    also set the flag. *)
Definition minimal_configuration : gmap string string :=
  {[ "ldap_url" := "ldap://localhost:389/";
     "ldap_base" := "ou=users,dc=example,dc=com" ]}.

Definition configuration_with_flag (v : string) : gmap string string :=
  <[ "ldap_support_extended" := v ]> minimal_configuration.

(** ** What [__init__] builds *)

(** The load-time conversion goes through: the flag is not configured (the
    schema default is read) or is a string [parse_bool] accepts. *)
Definition flag_loadable (configuration : gmap string string) : bool :=
  match configuration !! "ldap_support_extended" with
  | Some v => py_in (PStr v) ["True"; "true"; "yes"]
              || py_in (PStr v) ["False"; "false"; "no"]
  | None => true
  end.

(** What the load-time conversion writes to standard output: [parse_bool]
    runs on the schema's default and then on the configured flag, if any. *)
Definition load_prints (configuration : gmap string string) : list event :=
  EPrintFlag (PStr "True")
    :: match configuration !! "ldap_support_extended" with
       | Some v => [EPrintFlag (PStr v)]
       | None => []
       end.

(** The instance after lines 125-150: the two required options, and for
    each other option the configured string or else the class attribute. *)
Definition configured_auth (configuration : gmap string string)
    (url base : string) : Auth :=
  {| ldap_url := rstrip_slash url;
     ldap_base := base;
     ldap_filter := default (ldap_filter Auth_class) (configuration !! "ldap_filter");
     ldap_attribute :=
       default (ldap_attribute Auth_class) (configuration !! "ldap_attribute");
     ldap_binddn := default (ldap_binddn Auth_class) (configuration !! "ldap_binddn");
     ldap_password :=
       default (ldap_password Auth_class) (configuration !! "ldap_password");
     ldap_scope := default (ldap_scope Auth_class) (configuration !! "ldap_scope");
     ldap_support_extended :=
       from_option PStr (ldap_support_extended Auth_class)
         (configuration !! "ldap_support_extended") |}.

(** Lines 152-160. *)
Definition configuration_log (self : Auth) : list event :=
  [ ELog INFO (Msg "LDAP auth configuration:");
    ELog INFO (MsgFmt "  %r is %r" [PStr "ldap_url"; PStr (ldap_url self)]);
    ELog INFO (MsgFmt "  %r is %r" [PStr "ldap_base"; PStr (ldap_base self)]);
    ELog INFO (MsgFmt "  %r is %r" [PStr "ldap_filter"; PStr (ldap_filter self)]);
    ELog INFO (MsgFmt "  %r is %r"
                 [PStr "ldap_attribute"; PStr (ldap_attribute self)]);
    ELog INFO (MsgFmt "  %r is %r" [PStr "ldap_binddn"; PStr (ldap_binddn self)]);
    ELog INFO (MsgFmt "  %r is %r"
                 [PStr "ldap_password"; PStr (ldap_password self)]);
    ELog INFO (MsgFmt "  %r is %r" [PStr "ldap_scope"; PStr (ldap_scope self)]);
    ELog INFO (MsgFmt "  %r is %r"
                 [PStr "ldap_support_extended"; ldap_support_extended self]) ].

Fixpoint slashes (n : nat) : string :=
  match n with
  | O => ""
  | S n' => String "/" (slashes n')
  end.

Fixpoint ends_with_slash (s : string) : bool :=
  match s with
  | "" => false
  | String c "" => Ascii.eqb c "/"
  | String _ s' => ends_with_slash s'
  end.

(** ** The order of the calls *)

(** Where a connection stands: not yet constructed, constructed, bound,
    unbound. *)
Inductive conn_state := Unmade | Made | Bound | Closed.

Definition step_conn (st : conn_state) (op : operation) : option conn_state :=
  match st, op with
  | Unmade, OpConnection _ _ => Some Made
  | Made, OpBind => Some Bound
  | Bound, OpWhoAmI => Some Bound
  | Bound, OpSearch _ => Some Bound
  | Bound, OpUnbind => Some Closed
  | _, _ => None
  end.

(** Each connection is constructed, bound, used and unbound in this order,
    nothing is called on it afterwards, and the second connection is not
    touched before the first is unbound. *)
Fixpoint follows_protocol (s1 s2 : conn_state) (t : list event) : bool :=
  match t with
  | [] => true
  | ECall conn1 op :: t' =>
      match step_conn s1 op with
      | Some s => follows_protocol s s2 t'
      | None => false
      end
  | ECall conn2 op :: t' =>
      match s1, step_conn s2 op with
      | Closed, Some s => follows_protocol s1 s t'
      | _, _ => false
      end
  | _ :: t' => follows_protocol s1 s2 t'
  end.

Definition is_search (e : event) : bool :=
  match e with ECall _ (OpSearch _) => true | _ => false end.

Fixpoint search_count (t : list event) : nat :=
  match t with
  | [] => 0
  | e :: t' => (if is_search e then 1 else 0) + search_count t'
  end.

(** The identity the first connection is constructed with (lines 166-169). *)
Definition service_identity (self : Auth) : option string * option string :=
  if nonempty (ldap_binddn self) && nonempty (ldap_password self)
  then (Some (ldap_binddn self), Some (ldap_password self))
  else (None, None).

(** A directory that refuses the user's bind (result 49) and all the same
    answers who-am-i with an identity. *)
Definition refused_but_named : world :=
  with_bind
    (fun s => if decide (conn_ident s = conn2) then Return invalidCredentials
              else Return success)
    (calm [alice]).


Definition full_configuration : gmap string string :=
  <[ "ldap_binddn" := "cn=radicale,dc=example,dc=com" ]>
    (<[ "ldap_password" := "s3cret" ]>
       (<[ "ldap_attribute" := "uid" ]> (configuration_with_flag "no"))).

(** * Theorems *)

(** ** Running the monad *)

Lemma run_bind {A B} (m : M A) (f : A -> M B) (w : world) :
  (m ≫= f) w =
  match m w with
  | (t1, Return a) => (t1 ++ trace (f a w), returned (f a w))
  | (t1, Raise e) => (t1, Raise e)
  end.
Proof.
  unfold mbind, M_bind, bind, trace, returned.
  destruct (m w) as [t1 [a|e]]; [destruct (f a w) |]; reflexivity.
Qed.

Lemma run_try_except {A} (m : M A) (h : exn -> M A) (w : world) :
  try_except m h w =
  match m w with
  | (t1, Return a) => (t1, Return a)
  | (t1, Raise e) => (t1 ++ trace (h e w), returned (h e w))
  end.
Proof.
  unfold try_except, trace, returned.
  destruct (m w) as [t1 [a|e]]; [| destruct (h e w)]; reflexivity.
Qed.

Lemma run_pair {A} (r : list event * outcome A) : r = (trace r, returned r).
Proof. destruct r; reflexivity. Qed.

(** ** [parse_bool] *)

Lemma parse_bool_run (v : pyval) (w : world) :
  parse_bool v w =
  ([EPrintFlag v],
   if py_in v ["True"; "true"; "yes"] then Return true
   else if py_in v ["False"; "false"; "no"] then Return false
   else Raise (mk_exn ValueError "Not a bool")).
Proof.
  unfold parse_bool. rewrite run_bind.
  destruct (py_in v ["True"; "true"; "yes"]); [reflexivity |].
  destruct (py_in v ["False"; "false"; "no"]); reflexivity.
Qed.

Lemma py_in_spec (v : pyval) (l : list string) :
  py_in v l = true <-> exists s, v = PStr s /\ In s l.
Proof.
  unfold py_in. rewrite existsb_exists. split.
  - intros (s & Hin & Heq). destruct v; try discriminate.
    apply String.eqb_eq in Heq. subst. eauto.
  - intros (s & -> & Hin). exists s. split; [exact Hin |].
    apply String.eqb_refl.
Qed.

(** C9: [parse_bool] returns true on exactly "True", "true" and "yes", false
    on exactly "False", "false" and "no", and raises [ValueError] on every
    other value, a Python [bool] included. *)
Theorem parse_bool_strict (v : pyval) (w : world) :
  (returned (parse_bool v w) = Return true <->
     v = PStr "True" \/ v = PStr "true" \/ v = PStr "yes") /\
  (returned (parse_bool v w) = Return false <->
     v = PStr "False" \/ v = PStr "false" \/ v = PStr "no") /\
  (returned (parse_bool v w) = Raise (mk_exn ValueError "Not a bool") <->
     v <> PStr "True" /\ v <> PStr "true" /\ v <> PStr "yes" /\
     v <> PStr "False" /\ v <> PStr "false" /\ v <> PStr "no").
Proof.
  rewrite parse_bool_run. unfold returned. cbn [snd].
  destruct (py_in v ["True"; "true"; "yes"]) eqn:Ht;
    [| destruct (py_in v ["False"; "false"; "no"]) eqn:Hf].
  - apply py_in_spec in Ht as (s & -> & Hs). cbn in Hs.
    split; [| split]; split; intros H; try discriminate H.
    + intuition congruence.
    + reflexivity.
    + intuition congruence.
    + intuition congruence.
  - apply py_in_spec in Hf as (s & -> & Hs). cbn in Hs.
    split; [| split]; split; intros H; try discriminate H.
    + intuition congruence.
    + intuition congruence.
    + reflexivity.
    + intuition congruence.
  - assert (Hn : forall s, In s ["True"; "true"; "yes"; "False"; "false"; "no"] ->
                           v <> PStr s).
    { intros s Hs ->.
      assert (In s ["True"; "true"; "yes"] \/ In s ["False"; "false"; "no"])
        as [H|H] by (cbn in *; tauto).
      - enough (py_in (PStr s) ["True"; "true"; "yes"] = true) by congruence.
        apply py_in_spec; eauto.
      - enough (py_in (PStr s) ["False"; "false"; "no"] = true) by congruence.
        apply py_in_spec; eauto. }
    split; [| split]; split; intros H; try discriminate H.
    + exfalso. destruct H as [H|[H|H]]; revert H; apply Hn; cbn; tauto.
    + exfalso. destruct H as [H|[H|H]]; revert H; apply Hn; cbn; tauto.
    + repeat split; apply Hn; cbn; tauto.
    + reflexivity.
Qed.

(** ** Case analysis on what the directory does *)

Ltac reduce :=
  cbv [login service_phase verification_phase verify verify_handler
       Server Connection conn_bind who_am_i search unbind call logger getitem
       result_code parse_bool mbind M_bind bind try_except emit ask ret raise
       mret M_ret trace returned fst snd service_session user_session
       conn_session conn_ident conn_result conn_response];
  cbn [app].

Ltac split_oracle :=
  match goal with
  | |- context [Server_outcome ?w ?u] => destruct (Server_outcome w u) eqn:?
  | |- context [Connection_outcome ?w ?s] => destruct (Connection_outcome w s) eqn:?
  | |- context [bind_outcome ?w ?s] => destruct (bind_outcome w s) eqn:?
  | |- context [who_am_i_outcome ?w ?s] => destruct (who_am_i_outcome w s) eqn:?
  | |- context [search_outcome ?w ?s ?r] => destruct (search_outcome w s r) eqn:?
  | |- context [unbind_outcome ?w ?s] => destruct (unbind_outcome w s) eqn:?
  end.

Ltac split_data :=
  match goal with
  | |- context [match ?x with Some _ => _ | None => _ end] => destruct x eqn:?
  | |- context [match ?x with [] => _ | _ :: _ => _ end] => destruct x eqn:?
  | |- context [if ?b then _ else _] => destruct b eqn:?
  end.

Ltac all_paths := reduce; repeat (first [split_oracle | split_data]; reduce).

(** ** The search filter *)

Lemma append_cons (a : ascii) (s t : string) :
  String a s +:+ t = String a (s +:+ t).
Proof. reflexivity. Qed.

Lemma append_empty (t : string) : "" +:+ t = t.
Proof. reflexivity. Qed.

Lemma occurs_app (c : ascii) (s t : string) :
  occurs c (s +:+ t) = occurs c s || occurs c t.
Proof.
  induction s as [|a s IH]; [reflexivity |].
  rewrite append_cons. cbn [occurs]. rewrite IH. apply orb_assoc.
Qed.

Lemma escape_char_cases (c : ascii) :
  (is_filter_meta c = false /\ Ascii.eqb c "\" = false /\
   escape_char c = String c "") \/
  (c = "*"%char /\ escape_char c = "\2a") \/
  (c = "("%char /\ escape_char c = "\28") \/
  (c = ")"%char /\ escape_char c = "\29") \/
  (c = "\"%char /\ escape_char c = "\5c") \/
  (c = zero /\ escape_char c = "\00").
Proof.
  unfold escape_char, is_filter_meta.
  destruct (Ascii.eqb_spec c "*") as [->|_]; [tauto |].
  destruct (Ascii.eqb_spec c "(") as [->|_]; [tauto |].
  destruct (Ascii.eqb_spec c ")") as [->|_]; [tauto |].
  destruct (Ascii.eqb_spec c "\") as [->|_]; [tauto |].
  destruct (Ascii.eqb_spec c zero) as [->|_]; tauto.
Qed.

Lemma meta_not_in_escape (c : ascii) :
  is_filter_meta c = true ->
  occurs c "\2a" = false /\ occurs c "\28" = false /\ occurs c "\29" = false /\
  occurs c "\5c" = false /\ occurs c "\00" = false.
Proof.
  unfold is_filter_meta.
  destruct (Ascii.eqb_spec c "*") as [->|_]; [repeat split; reflexivity |].
  destruct (Ascii.eqb_spec c "(") as [->|_]; [repeat split; reflexivity |].
  destruct (Ascii.eqb_spec c ")") as [->|_]; [repeat split; reflexivity |].
  destruct (Ascii.eqb_spec c zero) as [->|_]; [repeat split; reflexivity |].
  discriminate.
Qed.

Lemma escape_has_no_meta (c : ascii) (s : string) :
  is_filter_meta c = true -> occurs c (escape_attribute_value s) = false.
Proof.
  intros Hc. destruct (meta_not_in_escape c Hc) as (H1 & H2 & H3 & H4 & H5).
  induction s as [|a s IH]; [reflexivity |].
  cbn [escape_attribute_value]. rewrite occurs_app, IH, orb_false_r.
  destruct (escape_char_cases a)
    as [(Ha & _ & ->)|[(-> & ->)|[(-> & ->)|[(-> & ->)|[(-> & ->)|(-> & ->)]]]]];
    try assumption.
  cbn [occurs]. rewrite orb_false_r.
  destruct (Ascii.eqb_spec a c) as [->|]; congruence.
Qed.

Lemma escape_reads_back (s : string) :
  literal_value (escape_attribute_value s) = Some s.
Proof.
  induction s as [|a s IH]; [reflexivity |].
  cbn [escape_attribute_value].
  destruct (escape_char_cases a)
    as [(Ha & Hb & ->)|[(-> & ->)|[(-> & ->)|[(-> & ->)|[(-> & ->)|(-> & ->)]]]]];
    rewrite ?append_cons, append_empty.
  - cbn [literal_value]. rewrite Hb, Ha, IH. reflexivity.
  - cbn. rewrite IH. reflexivity.
  - cbn. rewrite IH. reflexivity.
  - cbn. rewrite IH. reflexivity.
  - cbn. rewrite IH. reflexivity.
  - cbn. rewrite IH. reflexivity.
Qed.

Lemma search_calls_of_login (self : Auth) (l p : string) (w : world)
    (c : conn_id) (req : search_request) :
  In (ECall c (OpSearch req)) (trace (login self l p w)) ->
  c = conn1 /\ req = login_search_request self l.
Proof.
  all_paths; cbn [In]; intros H;
    repeat (destruct H as [H|H]; try discriminate H);
    try contradiction; injection H as <- <-; split; reflexivity.
Qed.

Example escape_injection_attempt :
  escape_attribute_value "*)(uid=*" = "\2a\29\28uid=\2a" /\
  filter_string sample_auth "*)(uid=*"
    = "(&(uid=\2a\29\28uid=\2a)(objectclass=user))".
Proof. split; reflexivity. Qed.

(** C3: the filter [login] searches with is [attribute=escaped(login)], wrapped
    as [(&(attribute=escaped-login)extra-filter)] when the configured filter
    is not empty; every search call of [login] carries it; and the escaped
    login holds no raw [*], [(], [)] or NUL and reads back, with each
    backslash starting an escape, as exactly the login. *)
Theorem login_filter_escapes_login (self : Auth) (l p : string) (w : world) :
  filter_string self l =
    (if nonempty (ldap_filter self)
     then "(&(" +:+ (ldap_attribute self +:+ "=" +:+ escape_attribute_value l)
          +:+ ")" +:+ ldap_filter self +:+ ")"
     else ldap_attribute self +:+ "=" +:+ escape_attribute_value l) /\
  (forall c req,
     In (ECall c (OpSearch req)) (trace (login self l p w)) ->
     search_filter req = filter_string self l) /\
  occurs "*" (escape_attribute_value l) = false /\
  occurs "(" (escape_attribute_value l) = false /\
  occurs ")" (escape_attribute_value l) = false /\
  occurs zero (escape_attribute_value l) = false /\
  literal_value (escape_attribute_value l) = Some l.
Proof.
  split; [reflexivity |]. split.
  - intros c req H. apply search_calls_of_login in H as [_ ->]. reflexivity.
  - repeat split; try (apply escape_has_no_meta; reflexivity).
    apply escape_reads_back.
Qed.

(** ** The search phase *)

Lemma service_phase_run (self : Auth) (l : string) (w : world) (r : ldap_result) :
  service_bind_returns self w r ->
  service_phase self l w =
  match search_outcome w (service_session self) (login_search_request self l) with
  | Raise e => (search_prefix self l w, Raise e)
  | Return users =>
      (search_prefix self l w ++ [ECall conn1 OpUnbind],
       match unbind_outcome w (service_session self) with
       | Return _ => Return (ldap_url self, Some users)
       | Raise e => Raise e
       end)
  end.
Proof.
  unfold service_bind_returns, search_prefix, probe_line.
  intros (HS & HC & HB). revert HC HB. reduce.
  destruct (nonempty (ldap_binddn self) && nonempty (ldap_password self));
    intros HC HB; rewrite HS, HC, HB; reduce;
    repeat (split_oracle; reduce); reflexivity.
Qed.

Lemma login_run (self : Auth) (l p : string) (w : world) (users : list entry) :
  search_phase_returns self l w users ->
  login self l p w =
  (search_prefix self l w ++ [ECall conn1 OpUnbind]
     ++ trace (verification_phase self (ldap_url self) l p (Some users) w),
   returned (verification_phase self (ldap_url self) l p (Some users) w)).
Proof.
  intros ((r & Hr) & Hs & Hu).
  unfold login. unfold mbind at 1. unfold M_bind, bind.
  rewrite (service_phase_run self l w r Hr), Hs, Hu.
  destruct (verification_phase self (ldap_url self) l p (Some users) w).
  cbn [trace returned fst snd]. rewrite <- app_assoc. reflexivity.
Qed.



(** ** User not found *)

(** C7: when the search phase returns no entry, [login] logs that the user
    was not found and returns the empty string; it does not raise. *)
Theorem login_user_not_found (self : Auth) (l p : string) (w : world) :
  search_phase_returns self l w [] ->
  login self l p w =
  (search_prefix self l w ++ [ECall conn1 OpUnbind; not_found_line l],
   Return "").
Proof.
  intros H. rewrite (login_run self l p w [] H). reflexivity.
Qed.

Lemma login_user_not_found_witness :
  search_phase_returns sample_auth "mallory" (calm []) [] /\
  login sample_auth "mallory" "secret" (calm []) =
  (search_prefix sample_auth "mallory" (calm [])
     ++ [ECall conn1 OpUnbind; not_found_line "mallory"],
   Return "").
Proof.
  assert (H : search_phase_returns sample_auth "mallory" (calm []) []).
  { split; [exists success |]; repeat split. }
  split; [exact H |].
  exact (login_user_not_found sample_auth "mallory" "secret" (calm []) H).
Defined.

(** ** The verification phase *)

Lemma verify_handler_run (err : exn) (w : world) :
  verify_handler err w = ([failure_line err], Return "").
Proof.
  unfold failure_line. reduce.
  destruct (decide (exn_cls err = LDAPInvalidCredentialsResult)); reflexivity.
Qed.

Lemma verification_phase_run (self : Auth) (S l p : string) (w : world)
    (first : entry) (rest : list entry) (user_dn uid : string) :
  entry_readable self first user_dn uid ->
  verification_phase self S l p (Some (first :: rest)) w =
  match verify self S l p user_dn w with
  | (t, Return a) => (found_line uid user_dn :: t, Return a)
  | (t, Raise err) => (found_line uid user_dn :: t ++ [failure_line err], Return "")
  end.
Proof.
  intros (Hdn & attrs & Hattrs & Huid).
  unfold verification_phase. rewrite Hdn, Hattrs.
  cbv [getitem mbind M_bind bind mret M_ret ret logger emit try_except].
  rewrite Huid. cbn [app].
  destruct (verify self S l p user_dn w) as [t [a|err]]; [reflexivity |].
  rewrite verify_handler_run. reflexivity.
Qed.

Lemma verify_returns_login_or_nothing (self : Auth) (S l p user_dn : string)
    (w : world) (a : string) :
  returned (verify self S l p user_dn w) = Return a -> a = l \/ a = "".
Proof.
  all_paths; intros H; try discriminate H; injection H as <-; tauto.
Qed.

(** C1, as amended: when the search phase returns at least one entry and the
    first entry carries its ['dn'] and the configured attribute, whatever
    exception the verification raises is caught inside [login], which logs
    the failure category ("LDAP invalid credentials" or "LDAP error ...")
    and returns the empty string; the caller then receives the login string
    or the empty string and no exception. *)
Theorem verification_exceptions_are_caught (self : Auth) (l p : string)
    (w : world) (first : entry) (rest : list entry) (user_dn uid : string) :
  search_phase_returns self l w (first :: rest) ->
  entry_readable self first user_dn uid ->
  (returned (login self l p w) = Return l \/
   returned (login self l p w) = Return "") /\
  (forall t err,
     verify self (ldap_url self) l p user_dn w = (t, Raise err) ->
     login self l p w =
     (search_prefix self l w
        ++ [ECall conn1 OpUnbind; found_line uid user_dn] ++ t
        ++ [failure_line err],
      Return "")).
Proof.
  intros Hs He. rewrite (login_run self l p w _ Hs).
  rewrite (verification_phase_run self _ l p w first rest user_dn uid He).
  split.
  - destruct (verify self (ldap_url self) l p user_dn w) as [t [a|err]] eqn:Hv;
      cbn [returned snd]; [| tauto].
    destruct (verify_returns_login_or_nothing self (ldap_url self) l p user_dn w a)
      as [-> | ->]; [rewrite Hv; reflexivity | tauto | tauto].
  - intros t err ->. reflexivity.
Qed.

Lemma verification_exceptions_are_caught_witness :
  search_phase_returns sample_auth "alice" credentials_rejected [alice] /\
  entry_readable sample_auth alice "uid=alice,ou=users,dc=example,dc=com" "alice" /\
  login sample_auth "alice" "secret" credentials_rejected =
  (search_prefix sample_auth "alice" credentials_rejected
     ++ [ECall conn1 OpUnbind;
         found_line "alice" "uid=alice,ou=users,dc=example,dc=com";
         ECall conn2 (OpConnection (Some "uid=alice,ou=users,dc=example,dc=com")
                        (Some "secret"));
         ECall conn2 OpBind;
         ELog ERROR (Msg "LDAP invalid credentials")],
   Return "").
Proof.
  assert (Hs : search_phase_returns sample_auth "alice" credentials_rejected [alice]).
  { split; [exists success |]; repeat split. }
  assert (He : entry_readable sample_auth alice
                 "uid=alice,ou=users,dc=example,dc=com" "alice").
  { split; [reflexivity |]. eexists. split; reflexivity. }
  split; [exact Hs |]. split; [exact He |].
  exact (proj2 (verification_exceptions_are_caught sample_auth "alice" "secret"
                  credentials_rejected alice [] _ _ Hs He) _ _ eq_refl).
Defined.

(** C1, as stated, fails: an exception of the service bind leaves [login],
    and so does the [KeyError] of a first response element without ['dn'],
    after a search phase that returned two elements. *)
Lemma login_raises_outside_verification :
  returned (login sample_auth "alice" "secret" unreachable) = Raise socket_error /\
  search_phase_returns sample_auth "alice" (calm [referral; alice])
    [referral; alice] /\
  returned (login sample_auth "alice" "secret" (calm [referral; alice]))
    = Raise (mk_exn KeyError "'dn'").
Proof.
  split; [reflexivity |]. split; [| reflexivity].
  split; [exists success |]; repeat split.
Qed.

(** ** Releasing the connections *)

Ltac absurd_path :=
  match goal with
  | HS : forall url, Server_outcome ?w url = Return tt,
    H : Server_outcome ?w _ = Raise _ |- _ => rewrite HS in H; discriminate H
  | HC : forall s, Connection_outcome ?w s = Return tt,
    H : Connection_outcome ?w _ = Raise _ |- _ => rewrite HC in H; discriminate H
  | HB : forall s, exists r, bind_outcome ?w s = Return r,
    H : bind_outcome ?w ?s = Raise _ |- _ =>
      let E := fresh in destruct (HB s) as [? E]; rewrite E in H; discriminate H
  | HW : forall s, conn_ident s = conn2 -> exists o, who_am_i_outcome ?w s = Return o,
    H : who_am_i_outcome ?w ?s = Raise _ |- _ =>
      let E := fresh in
      destruct (HW s eq_refl) as [? E]; rewrite E in H; discriminate H
  | HQ : forall s req, exists users, search_outcome ?w s req = Return users,
    H : search_outcome ?w ?s ?q = Raise _ |- _ =>
      let E := fresh in destruct (HQ s q) as [? E]; rewrite E in H; discriminate H
  | HU : forall s, unbind_outcome ?w s = Return tt,
    H : unbind_outcome ?w _ = Raise _ |- _ => rewrite HU in H; discriminate H
  end.

(** C2, as amended: on every path of a [login] call on which no call on the
    directory raises (the probe on the first connection may) and the stored
    flag is one the parser accepts, each connection that was opened is
    unbound before the call returns. *)
Theorem connections_released_when_calls_return (self : Auth) (l p : string)
    (w : world) :
  calls_return w ->
  flag_accepted self = true ->
  all_released (trace (login self l p w)) = true.
Proof.
  unfold calls_return, flag_accepted.
  intros (HS & HC & HB & HW & HQ & HU) Hf. revert Hf.
  all_paths; intros Hf; first [reflexivity | absurd_path | discriminate Hf].
Qed.

Lemma connections_released_when_calls_return_witness :
  calls_return (calm [alice]) /\
  flag_accepted sample_auth = true /\
  all_released (trace (login sample_auth "alice" "secret" (calm [alice]))) = true.
Proof.
  assert (H : calls_return (calm [alice])).
  { repeat split; intros; cbn; eauto. }
  split; [exact H |]. split; [reflexivity |].
  exact (connections_released_when_calls_return sample_auth "alice" "secret"
           (calm [alice]) H eq_refl).
Defined.

(** C2, as stated, fails: when who-am-i raises on the second connection,
    [login] returns the empty string with that connection opened and never
    unbound; when the search raises, the exception leaves [login] with the
    first connection opened and never unbound. *)
Lemma login_leaves_connection_bound :
  (returned (login sample_auth "alice" "secret" who_am_i_breaks) = Return "" /\
   opened (trace (login sample_auth "alice" "secret" who_am_i_breaks)) conn2 = true /\
   released (trace (login sample_auth "alice" "secret" who_am_i_breaks)) conn2 = false /\
   all_released (trace (login sample_auth "alice" "secret" who_am_i_breaks)) = false) /\
  (returned (login sample_auth "alice" "secret" search_breaks)
     = Raise session_terminated /\
   opened (trace (login sample_auth "alice" "secret" search_breaks)) conn1 = true /\
   released (trace (login sample_auth "alice" "secret" search_breaks)) conn1 = false).
Proof. repeat split. Qed.

(** ** Which entry is used, and what for *)



Example second_entry_is_ignored :
  login sample_auth "alice" "secret" (calm [alice; bob])
    = login sample_auth "alice" "secret" (calm [alice]) /\
  returned (login sample_auth "alice" "secret" (calm [alice; bob]))
    = Return "alice".
Proof. split; reflexivity. Qed.




Example login_need_not_equal_stored_value :
  returned (login sample_auth "Alice" "secret" (calm [alice])) = Return "Alice".
Proof. reflexivity. Qed.

(** ** Confirming the bind *)

(** What the flag decides, for a flag the parser accepts and an unbind that
    returns: enabled, the call returns the login exactly when who-am-i
    returns a non-empty identity; disabled, exactly when the result code of
    the bind is zero, who-am-i not being called. *)
Lemma confirmation_follows_flag (self : Auth) (S l p user_dn : string)
    (w : world) (r : ldap_result) :
  Connection_outcome w (mk_session conn2 S (Some user_dn) (Some p)) = Return tt ->
  bind_outcome w (mk_session conn2 S (Some user_dn) (Some p)) = Return r ->
  unbind_outcome w (mk_session conn2 S (Some user_dn) (Some p)) = Return tt ->
  (py_in (ldap_support_extended self) ["True"; "true"; "yes"] = true ->
   returned (verify self S l p user_dn w) =
   match who_am_i_outcome w (mk_session conn2 S (Some user_dn) (Some p)) with
   | Return (Some identity) => if nonempty identity then Return l else Return ""
   | Return None => Return ""
   | Raise err => Raise err
   end) /\
  (py_in (ldap_support_extended self) ["True"; "true"; "yes"] = false ->
   py_in (ldap_support_extended self) ["False"; "false"; "no"] = true ->
   returned (verify self S l p user_dn w) =
     (if (result r =? 0)%Z then Return l else Return "") /\
   ~ In (ECall conn2 OpWhoAmI) (trace (verify self S l p user_dn w))).
Proof.
  intros HC HB HU. split.
  - intros Ht. reduce. rewrite HC, HB, Ht. reduce.
    destruct (who_am_i_outcome w _) as [[identity|]|err]; reduce;
      rewrite ?HU; reduce; [| reflexivity | reflexivity].
    unfold truthy, nonempty.
    destruct (negb (String.eqb identity "")); reflexivity.
  - intros Ht Hf. reduce. rewrite HC, HB, Ht, Hf. reduce. rewrite HU. reduce.
    unfold truthy. destruct (result r =? 0)%Z; cbn [fst snd In];
      (split; [reflexivity |]); intros H;
      repeat (destruct H as [H|H]; try discriminate H); contradiction.
Qed.

Example disabled_flag_ignores_who_am_i :
  returned (login (with_flag sample_auth (PStr "False")) "alice" "secret"
              no_who_am_i) = Return "alice" /\
  returned (login (with_flag sample_auth (PStr "True")) "alice" "secret"
              no_who_am_i) = Return "".
Proof. split; reflexivity. Qed.

(** C4 on the code: an authenticator made from a configuration that does not
    set [ldap_support_extended] keeps the class attribute [True], a [bool];
    [parse_bool] rejects it at every call, so a user who is found, whose
    bind succeeds and whom who-am-i names is refused, with "LDAP error Not
    a bool" in the log. *)
Theorem default_flag_refuses_confirmed_user :
  returned (Auth_init config_file minimal_configuration (calm [carol]))
    = Return default_auth /\
  ldap_support_extended default_auth = PBool true /\
  bind_outcome (calm [carol])
    (user_session default_auth "cn=carol,ou=users,dc=example,dc=com" "secret")
    = Return success /\
  who_am_i_outcome (calm [carol])
    (user_session default_auth "cn=carol,ou=users,dc=example,dc=com" "secret")
    = Return (Some "cn=carol,ou=users,dc=example,dc=com") /\
  returned (login default_auth "carol" "secret" (calm [carol])) = Return "" /\
  last (trace (login default_auth "carol" "secret" (calm [carol])))
    = Some (ELog ERROR (Msg "LDAP error Not a bool")).
Proof. repeat split. Qed.

(** ** The two checkpoints of the flag *)

Lemma bind_raises {A B} (m : M A) (f : A -> M B) (w : world) t e :
  m w = (t, Raise e) -> (m ≫= f) w = (t, Raise e).
Proof. intros H. unfold mbind, M_bind, bind. rewrite H. reflexivity. Qed.

Lemma bind_trace_prefix {A B} (m : M A) (f : A -> M B) (w : world) :
  exists t, trace ((m ≫= f) w) = trace (m w) ++ t.
Proof.
  unfold mbind, M_bind, bind.
  destruct (m w) as [t1 [a|e]]; cbn [trace fst].
  - destruct (f a w) as [t2 r]. exists t2. reflexivity.
  - exists []. rewrite app_nil_r. reflexivity.
Qed.

Lemma convert_option_str (source : string) (o : string * schema_option)
    (raw : string) (w : world) :
  type (snd o) = type_str -> convert_option source o raw w = ([], Return tt).
Proof. intros H. unfold convert_option. rewrite H. reflexivity. Qed.

Lemma convert_option_flag (source : string) (o : string * schema_option)
    (raw : string) (w : world) :
  type (snd o) = type_parse_bool ->
  convert_option source o raw w =
  ([EPrintFlag (PStr raw)],
   if py_in (PStr raw) ["True"; "true"; "yes"]
      || py_in (PStr raw) ["False"; "false"; "no"]
   then Return tt
   else Raise (invalid_value type_parse_bool (fst o) source raw)).
Proof.
  intros H. unfold convert_option. rewrite H.
  cbv [apply_type parse_bool mbind M_bind bind try_except emit ask ret raise
       mret M_ret].
  destruct (py_in (PStr raw) ["True"; "true"; "yes"]); [reflexivity |].
  destruct (py_in (PStr raw) ["False"; "false"; "no"]); reflexivity.
Qed.

Lemma convert_defaults_schema (w : world) :
  convert_defaults PLUGIN_CONFIG_SCHEMA w = ([EPrintFlag (PStr "True")], Return tt).
Proof. reflexivity. Qed.

Lemma convert_configured_cons_str (source : string)
    (configuration : gmap string string) (name d : string)
    (schema : list (string * schema_option)) (w : world) :
  convert_configured source configuration ((name, mk_option d type_str) :: schema) w
    = convert_configured source configuration schema w.
Proof.
  cbn [convert_configured]. unfold mbind, M_bind, bind, convert_configured_option.
  cbn [fst].
  destruct (configuration !! name);
    [rewrite convert_option_str by reflexivity |];
    cbv [mret M_ret ret]; destruct (convert_configured source configuration schema w);
    reflexivity.
Qed.

Lemma configuration_copy_schema (source : string)
    (configuration : gmap string string) (w : world) :
  configuration_copy source configuration PLUGIN_CONFIG_SCHEMA w =
  (load_prints configuration,
   if flag_loadable configuration then Return tt
   else Raise (invalid_value type_parse_bool "ldap_support_extended" source
                 (default "" (configuration !! "ldap_support_extended")))).
Proof.
  unfold configuration_copy. unfold mbind at 1. unfold M_bind, bind.
  rewrite convert_defaults_schema.
  unfold PLUGIN_CONFIG_SCHEMA. rewrite !convert_configured_cons_str.
  cbn [convert_configured]. unfold mbind, M_bind, bind, convert_configured_option.
  unfold load_prints, flag_loadable. cbn [fst].
  destruct (configuration !! "ldap_support_extended") as [v|]; [| reflexivity].
  rewrite convert_option_flag by reflexivity. cbn [default from_option id fst].
  destruct (py_in (PStr v) ["True"; "true"; "yes"]
            || py_in (PStr v) ["False"; "false"; "no"]); reflexivity.
Qed.

Lemma login_reaches_parse_bool (self : Auth) (l p : string) (w : world)
    (first : entry) (rest : list entry) (user_dn uid : string) (r : ldap_result) :
  search_phase_returns self l w (first :: rest) ->
  entry_readable self first user_dn uid ->
  verification_bind_returns self w user_dn p r ->
  exists t t' o,
    login self l p w = (t ++ EPrintFlag (ldap_support_extended self) :: t', o) /\
    parse_bool_runs t = 0 /\
    parse_bool_runs t' = 0 /\
    (flag_accepted self = false ->
     t' = [ELog ERROR (Msg "LDAP error Not a bool")] /\ o = Return "").
Proof.
  intros Hs He (HC & HB).
  rewrite (login_run self l p w _ Hs).
  rewrite (verification_phase_run self _ l p w first rest user_dn uid He).
  unfold flag_accepted. revert HC HB. reduce. intros HC HB. rewrite HC, HB. reduce.
  set (pre := search_prefix self l w).
  assert (Hpre : parse_bool_runs pre = 0).
  { unfold pre, search_prefix, probe_line.
    destruct (who_am_i_outcome w _); reflexivity. }
  destruct (py_in (ldap_support_extended self) ["True"; "true"; "yes"]);
    [| destruct (py_in (ldap_support_extended self) ["False"; "false"; "no"])];
    repeat (first [split_oracle | split_data]; reduce);
    cbn [trace returned fst snd];
    (eexists (pre ++ [ECall conn1 OpUnbind; found_line uid user_dn;
                      ECall conn2 (OpConnection (Some user_dn) (Some p));
                      ECall conn2 OpBind;
                      ELog DEBUG (MsgResult (Some r))]), _, _;
     split; [rewrite <- app_assoc; reflexivity |];
     split; [unfold parse_bool_runs in *; rewrite filter_app, length_app, Hpre;
             reflexivity |];
     split; [unfold failure_line;
             try destruct (decide (exn_cls _ = LDAPInvalidCredentialsResult));
             reflexivity |];
     cbn [orb]; intros Hf; try discriminate Hf; split; reflexivity).
Qed.

(** C6, as amended: the parser runs at load time, on the configured value,
    and a value it rejects makes [__init__] raise a configuration error, so
    that no authenticator is made; it runs again at each [login] call that
    gets to the confirmation (an entry was found and the second [bind()]
    returned), on the stored flag, and a value it rejects there is not
    coerced: the [ValueError] is caught by [login], which logs "LDAP error
    Not a bool" and returns the empty string. *)
Theorem parse_bool_checkpoints (source : string)
    (configuration : gmap string string) (v : string) (self : Auth) (l p : string) (w : world) (first : entry) (rest : list entry)
    (user_dn uid : string) (r : ldap_result) :
  configuration !! "ldap_support_extended" = Some v ->
  search_phase_returns self l w (first :: rest) ->
  entry_readable self first user_dn uid ->
  verification_bind_returns self w user_dn p r ->
  In (EPrintFlag (PStr v)) (trace (Auth_init source configuration w)) /\
  (py_in (PStr v) ["True"; "true"; "yes"]
   || py_in (PStr v) ["False"; "false"; "no"] = false ->
   exists t msg,
     Auth_init source configuration w = (t, Raise (mk_exn RuntimeError msg))) /\
  parse_bool_runs (trace (login self l p w)) = 1 /\
  In (EPrintFlag (ldap_support_extended self)) (trace (login self l p w)) /\
  (flag_accepted self = false ->
   returned (login self l p w) = Return "" /\
   last (trace (login self l p w)) = Some (ELog ERROR (Msg "LDAP error Not a bool"))).
Proof.
  intros Hv Hs He Hb.
  pose proof (configuration_copy_schema source configuration w) as Hcopy.
  unfold load_prints, flag_loadable in Hcopy. rewrite Hv in Hcopy.
  split; [| split].
  - unfold Auth_init.
    match goal with
    | |- In _ (trace ((?m ≫= ?f) w)) =>
        destruct (bind_trace_prefix m f w) as (t & Ht)
    end.
    rewrite Ht, Hcopy. cbn [trace fst app In]. tauto.
  - intros Hbad. eexists _, _. unfold Auth_init. apply bind_raises.
    rewrite Hcopy, Hbad. reflexivity.
  - destruct (login_reaches_parse_bool self l p w first rest user_dn uid r Hs He Hb)
      as (t & t' & o & Hrun & Ht & Ht' & Hbad).
    rewrite Hrun. cbn [trace returned fst snd]. split; [| split].
    + unfold parse_bool_runs in *.
      rewrite filter_app, length_app, Ht, filter_cons. cbn [is_print_flag].
      destruct (decide (true = true)) as [_|Hn]; [| contradiction].
      cbn [length]. rewrite Ht'. reflexivity.
    + apply in_or_app. right. cbn [In]. tauto.
    + intros Hf. destruct (Hbad Hf) as [-> ->]. split; [reflexivity |].
      rewrite last_app. reflexivity.
Qed.

Lemma parse_bool_checkpoints_witness :
  configuration_with_flag "maybe" !! "ldap_support_extended" = Some "maybe" /\
  search_phase_returns (with_flag sample_auth (PStr "maybe")) "alice"
    (calm [alice]) [alice] /\
  entry_readable (with_flag sample_auth (PStr "maybe")) alice
    "uid=alice,ou=users,dc=example,dc=com" "alice" /\
  verification_bind_returns (with_flag sample_auth (PStr "maybe")) (calm [alice])
    "uid=alice,ou=users,dc=example,dc=com" "secret" success /\
  (exists t msg,
     Auth_init config_file (configuration_with_flag "maybe") (calm [alice])
       = (t, Raise (mk_exn RuntimeError msg))) /\
  parse_bool_runs
    (trace (login (with_flag sample_auth (PStr "maybe")) "alice" "secret"
              (calm [alice]))) = 1 /\
  returned (login (with_flag sample_auth (PStr "maybe")) "alice" "secret"
              (calm [alice])) = Return "".
Proof.
  assert (Hv : configuration_with_flag "maybe" !! "ldap_support_extended"
               = Some "maybe") by reflexivity.
  assert (Hs : search_phase_returns (with_flag sample_auth (PStr "maybe")) "alice"
                 (calm [alice]) [alice]).
  { split; [exists success |]; repeat split. }
  assert (He : entry_readable (with_flag sample_auth (PStr "maybe")) alice
                 "uid=alice,ou=users,dc=example,dc=com" "alice").
  { split; [reflexivity |]. eexists. split; reflexivity. }
  assert (Hb : verification_bind_returns (with_flag sample_auth (PStr "maybe"))
                 (calm [alice]) "uid=alice,ou=users,dc=example,dc=com" "secret"
                 success) by (split; reflexivity).
  destruct (parse_bool_checkpoints config_file (configuration_with_flag "maybe") "maybe"
              (with_flag sample_auth (PStr "maybe")) "alice" "secret"
              (calm [alice]) alice [] _ _ success Hv Hs He Hb)
    as (_ & Hload & Hruns & _ & Hbad).
  repeat (split; [assumption |]).
  split; [exact (Hload eq_refl) |]. split; [exact Hruns |].
  exact (proj1 (Hbad eq_refl)).
Defined.

(** C6, as stated, fails: a call that finds no user, or whose second
    [bind()] raises, returns without the parser having run, whatever the
    stored flag is. *)
Lemma parse_bool_skipped_before_confirmation :
  (parse_bool_runs
     (trace (login (with_flag sample_auth (PStr "maybe")) "mallory" "secret"
               (calm []))) = 0 /\
   login (with_flag sample_auth (PStr "maybe")) "mallory" "secret" (calm []) =
   (search_prefix (with_flag sample_auth (PStr "maybe")) "mallory" (calm [])
      ++ [ECall conn1 OpUnbind; not_found_line "mallory"],
    Return "")) /\
  (parse_bool_runs
     (trace (login (with_flag sample_auth (PStr "maybe")) "alice" "secret"
               credentials_rejected)) = 0 /\
   returned (login (with_flag sample_auth (PStr "maybe")) "alice" "secret"
               credentials_rejected) = Return "" /\
   last (trace (login (with_flag sample_auth (PStr "maybe")) "alice" "secret"
                  credentials_rejected))
     = Some (ELog ERROR (Msg "LDAP invalid credentials"))).
Proof. repeat split. Qed.

(** * The constructor *)

Lemma get_or_keep_str_run (configuration : gmap string string)
    (name current : string) (w : world) :
  get_or_keep_str configuration name current w
    = ([], Return (default current (configuration !! name))).
Proof.
  unfold get_or_keep_str, try_except_class, try_except, configuration_get, getitem.
  destruct (configuration !! name); reflexivity.
Qed.

Lemma get_or_keep_run (configuration : gmap string string)
    (name : string) (current : pyval) (w : world) :
  get_or_keep configuration name current w
    = ([], Return (from_option PStr current (configuration !! name))).
Proof.
  unfold get_or_keep, try_except_class, try_except, configuration_get, getitem.
  cbv [mbind M_bind bind mret M_ret ret raise].
  destruct (configuration !! name); reflexivity.
Qed.

Lemma Auth_init_run (source : string) (configuration : gmap string string)
    (w : world) :
  Auth_init source configuration w =
  match flag_loadable configuration,
        configuration !! "ldap_url", configuration !! "ldap_base" with
  | false, _, _ =>
      (load_prints configuration,
       Raise (invalid_value type_parse_bool "ldap_support_extended" source
                (default "" (configuration !! "ldap_support_extended"))))
  | true, None, _ =>
      (load_prints configuration,
       Raise (mk_exn RuntimeError
                "The ldap_url configuration for ldap auth is required."))
  | true, Some _, None =>
      (load_prints configuration,
       Raise (mk_exn RuntimeError
                "The ldap_base configuration for ldap auth is required."))
  | true, Some url, Some base =>
      (load_prints configuration
         ++ configuration_log (configured_auth configuration url base),
       Return (configured_auth configuration url base))
  end.
Proof.
  unfold Auth_init. unfold mbind at 1. unfold M_bind at 1. unfold bind at 1.
  rewrite configuration_copy_schema.
  destruct (flag_loadable configuration); [| reflexivity].
  assert (Hno : forall A, ~ is_Some (@None A)) by (intros A [? H]; discriminate H).
  destruct (configuration !! "ldap_url") as [url|] eqn:Hurl;
    [| rewrite bool_decide_eq_false_2 by apply Hno;
       cbn [negb]; unfold raise; rewrite app_nil_r; reflexivity].
  rewrite (bool_decide_eq_true_2 (is_Some (Some url))) by eauto. cbn [negb].
  destruct (configuration !! "ldap_base") as [base|] eqn:Hbase;
    [| rewrite bool_decide_eq_false_2 by apply Hno;
       cbn [negb]; unfold raise; rewrite app_nil_r; reflexivity].
  rewrite !bool_decide_eq_true_2 by eauto. cbn [negb].
  cbv [mbind M_bind bind].
  unfold configuration_get. rewrite Hurl, Hbase. cbv [getitem mret M_ret ret].
  rewrite !get_or_keep_str_run, get_or_keep_run.
  reflexivity.
Qed.

(** X1: without [ldap_url] or without [ldap_base] no authenticator is made:
    [__init__] raises a [RuntimeError]; once the load-time conversion has
    gone through, the error names [ldap_url] when it is missing, and
    [ldap_base] when only that one is. *)
Theorem init_requires_url_and_base (source : string)
    (configuration : gmap string string) (w : world) :
  configuration !! "ldap_url" = None \/ configuration !! "ldap_base" = None ->
  (exists t msg,
     Auth_init source configuration w = (t, Raise (mk_exn RuntimeError msg))) /\
  (flag_loadable configuration = true ->
   returned (Auth_init source configuration w) =
   Raise (mk_exn RuntimeError
            match configuration !! "ldap_url" with
            | Some _ => "The ldap_base configuration for ldap auth is required."
            | None => "The ldap_url configuration for ldap auth is required."
            end)).
Proof.
  intros H. rewrite Auth_init_run.
  destruct (flag_loadable configuration).
  - destruct (configuration !! "ldap_url") as [url|];
      destruct (configuration !! "ldap_base") as [base|];
      try (destruct H; discriminate); split; eauto.
  - split; [eauto | discriminate].
Qed.

Lemma init_requires_url_and_base_witness :
  (({[ "ldap_url" := "ldap://localhost:389" ]} : gmap string string) !! "ldap_url" = None \/
   ({[ "ldap_url" := "ldap://localhost:389" ]} : gmap string string) !! "ldap_base" = None) /\
  returned (Auth_init config_file {[ "ldap_url" := "ldap://localhost:389" ]}
              (calm [])) =
  Raise (mk_exn RuntimeError "The ldap_base configuration for ldap auth is required.").
Proof.
  assert (H : ({[ "ldap_url" := "ldap://localhost:389" ]} : gmap string string)
                !! "ldap_url" = None \/
              ({[ "ldap_url" := "ldap://localhost:389" ]} : gmap string string)
                !! "ldap_base" = None) by (right; reflexivity).
  split; [exact H |].
  exact (proj2 (init_requires_url_and_base config_file _ (calm []) H) eq_refl).
Defined.

(** X2: [__init__] returns an authenticator exactly when the load-time
    conversion goes through and both required options are configured; the
    instance then holds the URL without its trailing slashes, the base, for
    every other option the configured string or else the class attribute
    (attribute "user", empty filter, scope "LEVEL"; the defaults of the
    schema are not used), and the flag as the raw string, or the class
    attribute [True]. *)
Theorem init_builds_from_configuration (source : string)
    (configuration : gmap string string) (w : world) (self : Auth) :
  returned (Auth_init source configuration w) = Return self <->
  flag_loadable configuration = true /\
  exists url base,
    configuration !! "ldap_url" = Some url /\
    configuration !! "ldap_base" = Some base /\
    self =
    {| ldap_url := rstrip_slash url;
       ldap_base := base;
       ldap_filter := default "" (configuration !! "ldap_filter");
       ldap_attribute := default "user" (configuration !! "ldap_attribute");
       ldap_binddn := default "" (configuration !! "ldap_binddn");
       ldap_password := default "" (configuration !! "ldap_password");
       ldap_scope := default "LEVEL" (configuration !! "ldap_scope");
       ldap_support_extended :=
         from_option PStr (PBool true) (configuration !! "ldap_support_extended") |}.
Proof.
  rewrite Auth_init_run.
  destruct (flag_loadable configuration);
    [| split; [discriminate | intros [H _]; discriminate H]].
  destruct (configuration !! "ldap_url") as [url|];
    [| split; [discriminate | intros (_ & ? & ? & H & _); discriminate H]].
  destruct (configuration !! "ldap_base") as [base|];
    [| split; [discriminate | intros (_ & ? & ? & _ & H & _); discriminate H]].
  cbn [returned snd]. split.
  - intros H. injection H as <-. split; [reflexivity |].
    exists url, base. repeat split; reflexivity.
  - intros (_ & url' & base' & Hu & Hb & ->).
    injection Hu as <-. injection Hb as <-. reflexivity.
Qed.

Lemma rstrip_slash_strips (s : string) :
  exists n, s = rstrip_slash s +:+ slashes n.
Proof.
  induction s as [|c s (n & IH)]; [exists 0; reflexivity |].
  cbn [rstrip_slash].
  destruct (Ascii.eqb_spec c "/") as [->|Hc]; cbn [andb].
  - destruct (String.eqb_spec (rstrip_slash s) "") as [He|He].
    + exists (S n). rewrite He in IH. rewrite append_empty in *.
      cbn [slashes]. congruence.
    + exists n. rewrite append_cons. congruence.
  - exists n. rewrite append_cons. congruence.
Qed.

Lemma rstrip_slash_end (s : string) : ends_with_slash (rstrip_slash s) = false.
Proof.
  induction s as [|c s IH]; [reflexivity |].
  cbn [rstrip_slash].
  destruct (Ascii.eqb_spec c "/") as [->|Hc]; cbn [andb].
  - destruct (String.eqb_spec (rstrip_slash s) "") as [He|He]; [reflexivity |].
    destruct (rstrip_slash s); [contradiction | exact IH].
  - destruct (rstrip_slash s); [| exact IH].
    cbn [ends_with_slash]. destruct (Ascii.eqb_spec c "/"); congruence.
Qed.

(** X3: the URL an authenticator holds never ends with a slash, and is the
    configured URL with nothing but slashes taken off its end. *)
Theorem stored_url_has_no_trailing_slash (source : string)
    (configuration : gmap string string) (w : world) (self : Auth) :
  returned (Auth_init source configuration w) = Return self ->
  ends_with_slash (ldap_url self) = false /\
  exists url n,
    configuration !! "ldap_url" = Some url /\
    url = ldap_url self +:+ slashes n.
Proof.
  rewrite Auth_init_run.
  destruct (flag_loadable configuration); [| discriminate].
  destruct (configuration !! "ldap_url") as [url|]; [| discriminate].
  destruct (configuration !! "ldap_base") as [base|]; [| discriminate].
  intros H. injection H as <-. cbn [ldap_url configured_auth]. split.
  - apply rstrip_slash_end.
  - destruct (rstrip_slash_strips url) as (n & Hn). eauto.
Qed.

Lemma stored_url_has_no_trailing_slash_witness :
  returned (Auth_init config_file
              (<[ "ldap_url" := "ldap://localhost:389///" ]> minimal_configuration)
              (calm []))
    = Return default_auth /\
  ends_with_slash (ldap_url default_auth) = false /\
  exists url n,
    (<[ "ldap_url" := "ldap://localhost:389///" ]> minimal_configuration)
      !! "ldap_url" = Some url /\
    url = ldap_url default_auth +:+ slashes n.
Proof.
  assert (H : returned (Auth_init config_file
                          (<[ "ldap_url" := "ldap://localhost:389///" ]>
                             minimal_configuration) (calm []))
              = Return default_auth) by reflexivity.
  split; [exact H |].
  exact (stored_url_has_no_trailing_slash config_file _ (calm []) default_auth H).
Defined.

(** X4: an authenticator that is made has written its whole configuration
    to the log at level INFO, the bind password in clear among it. *)
Theorem init_logs_bind_password (source : string)
    (configuration : gmap string string) (w : world) (self : Auth) :
  returned (Auth_init source configuration w) = Return self ->
  ldap_password self = default "" (configuration !! "ldap_password") /\
  In (ELog INFO (MsgFmt "  %r is %r"
                   [PStr "ldap_password"; PStr (ldap_password self)]))
     (trace (Auth_init source configuration w)) /\
  exists t, trace (Auth_init source configuration w) = t ++ configuration_log self.
Proof.
  rewrite Auth_init_run.
  destruct (flag_loadable configuration); [| discriminate].
  destruct (configuration !! "ldap_url") as [url|]; [| discriminate].
  destruct (configuration !! "ldap_base") as [base|]; [| discriminate].
  intros H. injection H as <-. cbn [trace returned fst snd].
  split; [reflexivity |]. split.
  - apply in_or_app. right. unfold configuration_log. cbn [In]. tauto.
  - exists (load_prints configuration). reflexivity.
Qed.

Lemma init_logs_bind_password_witness :
  returned (Auth_init config_file full_configuration (calm []))
    = Return (configured_auth full_configuration "ldap://localhost:389/"
                "ou=users,dc=example,dc=com") /\
  In (ELog INFO (MsgFmt "  %r is %r" [PStr "ldap_password"; PStr "s3cret"]))
     (trace (Auth_init config_file full_configuration (calm []))).
Proof.
  assert (H : returned (Auth_init config_file full_configuration (calm []))
              = Return (configured_auth full_configuration "ldap://localhost:389/"
                          "ou=users,dc=example,dc=com")) by reflexivity.
  split; [exact H |].
  exact (proj1 (proj2 (init_logs_bind_password config_file _ (calm []) _ H))).
Defined.

(** * More on [login] *)

Ltac in_trace := cbn [In]; repeat first [left; reflexivity | right].

Lemma service_connection_of_login (self : Auth) (l p : string) (w : world)
    (user password : option string) :
  In (ECall conn1 (OpConnection user password)) (trace (login self l p w)) ->
  user = conn_user (service_session self) /\
  password = conn_password (service_session self).
Proof.
  all_paths; cbn [conn_user conn_password In]; intros H;
    repeat (destruct H as [H|H]; try discriminate H);
    try contradiction; injection H as <- <-; split; reflexivity.
Qed.

(** X5: the first connection is made with the configured bind DN and
    password only when both are non-empty; with either one empty it is made
    without identity, for an anonymous bind. *)
Theorem service_connection_identity (self : Auth) (l p : string) (w : world)
    (user password : option string) :
  In (ECall conn1 (OpConnection user password)) (trace (login self l p w)) ->
  (user, password) = service_identity self /\
  (ldap_binddn self = "" \/ ldap_password self = "" ->
   user = None /\ password = None).
Proof.
  intros H. apply service_connection_of_login in H as [-> ->].
  unfold service_identity, service_session. split.
  - destruct (nonempty (ldap_binddn self) && nonempty (ldap_password self));
      reflexivity.
  - intros [He|He]; rewrite He; cbn [nonempty String.eqb negb andb];
      rewrite ?andb_false_r; split; reflexivity.
Qed.

Lemma service_connection_identity_witness :
  In (ECall conn1 (OpConnection None None))
     (trace (login (configured_auth
                      (<[ "ldap_binddn" := "cn=radicale,dc=example,dc=com" ]>
                         minimal_configuration)
                      "ldap://localhost:389/" "ou=users,dc=example,dc=com")
               "carol" "secret" (calm [carol]))) /\
  (None, None) =
  service_identity (configured_auth
                      (<[ "ldap_binddn" := "cn=radicale,dc=example,dc=com" ]>
                         minimal_configuration)
                      "ldap://localhost:389/" "ou=users,dc=example,dc=com").
Proof.
  assert (H : In (ECall conn1 (OpConnection None None))
     (trace (login (configured_auth
                      (<[ "ldap_binddn" := "cn=radicale,dc=example,dc=com" ]>
                         minimal_configuration)
                      "ldap://localhost:389/" "ou=users,dc=example,dc=com")
               "carol" "secret" (calm [carol])))) by (left; reflexivity).
  split; [exact H |].
  exact (proj1 (service_connection_identity _ _ _ _ _ _ H)).
Defined.

(** X6: whatever the directory does, the calls of [login] come in order:
    each connection is constructed, then bound, then used, then unbound,
    nothing is called on a connection after its unbind, and nothing is
    called on the second connection before the first is unbound. *)
Theorem login_follows_protocol (self : Auth) (l p : string) (w : world) :
  follows_protocol Unmade Unmade (trace (login self l p w)) = true.
Proof. all_paths; reflexivity. Qed.

(** X7: [login] returns a non-empty string only as the caller's login, and
    only after the second connection was made with the first entry's DN and
    the caller's password, bound and unbound, and "LDAP bind OK" logged. *)
Theorem success_requires_verification (self : Auth) (l p : string) (w : world)
    (s : string) :
  returned (login self l p w) = Return s ->
  s <> "" ->
  s = l /\
  (exists user_dn,
     In (ECall conn2 (OpConnection (Some user_dn) (Some p)))
        (trace (login self l p w))) /\
  In (ECall conn2 OpBind) (trace (login self l p w)) /\
  In (ECall conn2 OpUnbind) (trace (login self l p w)) /\
  last (trace (login self l p w)) = Some (ELog INFO (Msg "LDAP bind OK")).
Proof.
  all_paths; intros H Hs; try discriminate H; injection H as <-;
    try contradiction;
    (split; [reflexivity |]); (split; [eexists; in_trace |]);
    (split; [in_trace |]); (split; [in_trace | reflexivity]).
Qed.

Lemma success_requires_verification_witness :
  returned (login sample_auth "alice" "secret" (calm [alice])) = Return "alice" /\
  "alice" <> "" /\
  In (ECall conn2 OpBind) (trace (login sample_auth "alice" "secret" (calm [alice]))).
Proof.
  assert (H : returned (login sample_auth "alice" "secret" (calm [alice]))
              = Return "alice") by reflexivity.
  assert (Hn : "alice" <> "") by discriminate.
  split; [exact H |]. split; [exact Hn |].
  exact (proj1 (proj2 (proj2 (success_requires_verification _ _ _ _ _ H Hn)))).
Defined.

(** X10: [login] sends at most one search, on the first connection, for
    the configured base and scope and for the configured attribute alone. *)
Theorem login_searches_once (self : Auth) (l p : string) (w : world) :
  search_count (trace (login self l p w)) <= 1 /\
  (forall c req,
     In (ECall c (OpSearch req)) (trace (login self l p w)) ->
     c = conn1 /\
     search_base req = ldap_base self /\
     search_scope req = ldap_scope self /\
     search_attributes req = [ldap_attribute self]).
Proof.
  split.
  - all_paths; cbn [search_count is_search Nat.add]; lia.
  - intros c req H. apply search_calls_of_login in H as [-> ->].
    repeat split; reflexivity.
Qed.

(** * The confirmation and the first entry *)

(** X8: with the flag enabled the result of the user's bind is not looked
    at: whatever result the bind returns, a refusal included, [login]
    returns the login as soon as who-am-i returns a non-empty identity. *)
Theorem enabled_flag_ignores_bind_result (self : Auth) (l p : string)
    (w : world) (first : entry) (rest : list entry) (user_dn uid : string)
    (r : ldap_result) (identity : string) :
  search_phase_returns self l w (first :: rest) ->
  entry_readable self first user_dn uid ->
  verification_bind_returns self w user_dn p r ->
  py_in (ldap_support_extended self) ["True"; "true"; "yes"] = true ->
  who_am_i_outcome w (user_session self user_dn p) = Return (Some identity) ->
  identity <> "" ->
  unbind_outcome w (user_session self user_dn p) = Return tt ->
  returned (login self l p w) = Return l.
Proof.
  intros Hs He (HC & HB) Ht Hw Hi HU.
  rewrite (login_run self l p w _ Hs).
  rewrite (verification_phase_run self _ l p w first rest user_dn uid He).
  destruct (confirmation_follows_flag self (ldap_url self) l p user_dn w r
              HC HB HU) as [Hon _].
  specialize (Hon Ht). unfold user_session in Hw. rewrite Hw in Hon.
  assert (Hne : nonempty identity = true).
  { unfold nonempty. destruct (String.eqb_spec identity ""); [contradiction | reflexivity]. }
  rewrite Hne in Hon.
  destruct (verify self (ldap_url self) l p user_dn w) as [t [a|err]];
    cbn [returned snd] in *; congruence.
Qed.

Lemma enabled_flag_ignores_bind_result_witness :
  search_phase_returns sample_auth "alice" refused_but_named [alice] /\
  verification_bind_returns sample_auth refused_but_named
    "uid=alice,ou=users,dc=example,dc=com" "wrong" invalidCredentials /\
  returned (login sample_auth "alice" "wrong" refused_but_named) = Return "alice".
Proof.
  assert (Hs : search_phase_returns sample_auth "alice" refused_but_named [alice]).
  { split; [exists success |]; repeat split. }
  assert (He : entry_readable sample_auth alice
                 "uid=alice,ou=users,dc=example,dc=com" "alice").
  { split; [reflexivity |]. eexists. split; reflexivity. }
  assert (Hb : verification_bind_returns sample_auth refused_but_named
                 "uid=alice,ou=users,dc=example,dc=com" "wrong" invalidCredentials)
    by (split; reflexivity).
  split; [exact Hs |]. split; [exact Hb |].
  apply (enabled_flag_ignores_bind_result sample_auth "alice" "wrong"
           refused_but_named alice [] _ _ invalidCredentials
           "uid=alice,ou=users,dc=example,dc=com" Hs He Hb);
    [reflexivity | reflexivity | discriminate | reflexivity].
Defined.

Lemma no_second_who_am_i_in_prefix (self : Auth) (l : string) (w : world) :
  ~ In (ECall conn2 OpWhoAmI) (search_prefix self l w).
Proof.
  unfold search_prefix, probe_line. cbn [In]. intros H.
  repeat (destruct H as [H|H]; try discriminate H); try contradiction.
  destruct (who_am_i_outcome w (service_session self)); discriminate H.
Qed.

(** X9: with the flag disabled who-am-i is never called on the second
    connection, and [login] returns the login exactly when the result code
    of the user's bind is zero. *)
Theorem disabled_flag_decides_by_result_code (self : Auth) (l p : string)
    (w : world) (first : entry) (rest : list entry) (user_dn uid : string)
    (r : ldap_result) :
  search_phase_returns self l w (first :: rest) ->
  entry_readable self first user_dn uid ->
  verification_bind_returns self w user_dn p r ->
  py_in (ldap_support_extended self) ["True"; "true"; "yes"] = false ->
  py_in (ldap_support_extended self) ["False"; "false"; "no"] = true ->
  unbind_outcome w (user_session self user_dn p) = Return tt ->
  returned (login self l p w) = (if (result r =? 0)%Z then Return l else Return "") /\
  ~ In (ECall conn2 OpWhoAmI) (trace (login self l p w)).
Proof.
  intros Hs He (HC & HB) Ht Hf HU.
  rewrite (login_run self l p w _ Hs).
  rewrite (verification_phase_run self _ l p w first rest user_dn uid He).
  destruct (confirmation_follows_flag self (ldap_url self) l p user_dn w r
              HC HB HU) as [_ Hoff].
  destruct (Hoff Ht Hf) as [Hr Hn].
  destruct (verify self (ldap_url self) l p user_dn w) as [t [a|err]];
    cbn [trace returned fst snd] in *.
  - split; [exact Hr |]. intros H.
    apply in_app_or in H as [H|H];
      [exact (no_second_who_am_i_in_prefix self l w H) |].
    cbn [app In] in H. destruct H as [H|[H|H]]; try discriminate H. tauto.
  - destruct (result r =? 0)%Z; discriminate Hr.
Qed.

Lemma disabled_flag_decides_by_result_code_witness :
  search_phase_returns (with_flag sample_auth (PStr "no")) "alice"
    wrong_password [alice] /\
  verification_bind_returns (with_flag sample_auth (PStr "no")) wrong_password
    "uid=alice,ou=users,dc=example,dc=com" "wrong" invalidCredentials /\
  returned (login (with_flag sample_auth (PStr "no")) "alice" "wrong"
              wrong_password) = Return "".
Proof.
  assert (Hs : search_phase_returns (with_flag sample_auth (PStr "no")) "alice"
                 wrong_password [alice]).
  { split; [exists success |]; repeat split. }
  assert (He : entry_readable (with_flag sample_auth (PStr "no")) alice
                 "uid=alice,ou=users,dc=example,dc=com" "alice").
  { split; [reflexivity |]. eexists. split; reflexivity. }
  assert (Hb : verification_bind_returns (with_flag sample_auth (PStr "no"))
                 wrong_password "uid=alice,ou=users,dc=example,dc=com" "wrong"
                 invalidCredentials) by (split; reflexivity).
  split; [exact Hs |]. split; [exact Hb |].
  exact (proj1 (disabled_flag_decides_by_result_code
                  (with_flag sample_auth (PStr "no")) "alice" "wrong"
                  wrong_password alice [] _ _ invalidCredentials Hs He Hb
                  eq_refl eq_refl eq_refl)).
Defined.



Ltac reduce_probe :=
  cbn [with_who_am_i Server_outcome Connection_outcome bind_outcome
       who_am_i_outcome search_outcome unbind_outcome].

Ltac split_probe f H :=
  match goal with
  | |- context [f (mk_session conn2 ?a ?b ?c)] =>
      rewrite (H (mk_session conn2 a b c) eq_refl)
  | |- context [f (mk_session conn1 ?a ?b ?c)] =>
      destruct (f (mk_session conn1 a b c)) eqn:?
  end.

(** X12: what who-am-i does on the first connection changes neither what
    [login] returns nor the calls it makes on the directory; it changes one
    log line. *)
Theorem probe_does_not_change_result (self : Auth) (l p : string) (w : world)
    (f : session -> outcome (option string)) :
  (forall s, conn_ident s = conn2 -> f s = who_am_i_outcome w s) ->
  returned (login self l p (with_who_am_i f w)) = returned (login self l p w) /\
  directory_calls (trace (login self l p (with_who_am_i f w)))
    = directory_calls (trace (login self l p w)).
Proof.
  intros H. reduce; reduce_probe.
  repeat (first [split_probe f H | split_oracle | split_data];
          reduce; reduce_probe);
    split; reflexivity.
Qed.

Lemma probe_does_not_change_result_witness :
  (forall s, conn_ident s = conn2 ->
             who_am_i_outcome service_refused s = who_am_i_outcome (calm [alice]) s) /\
  returned (login sample_auth "alice" "secret"
              (with_who_am_i (who_am_i_outcome service_refused) (calm [alice])))
    = returned (login sample_auth "alice" "secret" (calm [alice])).
Proof.
  assert (H : forall s, conn_ident s = conn2 ->
             who_am_i_outcome service_refused s = who_am_i_outcome (calm [alice]) s).
  { intros [[] ? ? ?] Hs; [discriminate Hs | reflexivity]. }
  split; [exact H |].
  exact (proj1 (probe_does_not_change_result sample_auth "alice" "secret"
                  (calm [alice]) _ H)).
Defined.
